(** * LinearRAG service layer (api/services.py): a shallow embedding

    The service object [LinearRAGService] is a process-wide singleton whose
    methods mutate its own fields and call into external collaborators (the
    retrieval engine, the model runtimes, the clock and the file system).
    The embedding threads the service fields, the external world and an
    instrumentation trace through a state-and-exception monad; the external
    collaborators are the methods of the [Runtime] class. *)

From Stdlib Require Import Ascii String DecimalString.
From Stdlib Require Import List ZArith NArith QArith Bool Lia.
Import ListNotations.
Open Scope string_scope.
Open Scope list_scope.

Set Implicit Arguments.

(** ** Python strings

    A Python [str] is a sequence of Unicode code points. *)

Definition pystr := list N.

Fixpoint ascii_bytes (s : string) : list N :=
  match s with
  | EmptyString => []
  | String a t => N_of_ascii a :: ascii_bytes t
  end.

(** Source literals are written as UTF-8 text; [utf8_points] reads the code
    points back from the bytes of the literal. *)
Fixpoint utf8_points (bs : list N) : pystr :=
  match bs with
  | [] => []
  | b :: t =>
    if (b <? 128)%N then b :: utf8_points t
    else if (b <? 224)%N then
      match t with
      | c1 :: t1 => ((b - 192) * 64 + (c1 - 128))%N :: utf8_points t1
      | _ => []
      end
    else if (b <? 240)%N then
      match t with
      | c1 :: c2 :: t2 =>
        ((b - 224) * 4096 + (c1 - 128) * 64 + (c2 - 128))%N :: utf8_points t2
      | _ => []
      end
    else
      match t with
      | c1 :: c2 :: c3 :: t3 =>
        ((b - 240) * 262144 + (c1 - 128) * 4096 + (c2 - 128) * 64 + (c3 - 128))%N
          :: utf8_points t3
      | _ => []
      end
  end.

Definition py (s : string) : pystr := utf8_points (ascii_bytes s).

(** [str(n)] for a non-negative integer such as [len(passages)]. *)
Definition str_of_nat (n : nat) : pystr :=
  py (NilEmpty.string_of_uint (Nat.to_uint n)).

(** [str.isspace] on one code point, as CPython's whitespace table has it. *)
Definition isspace (c : N) : bool :=
  ((9 <=? c) && (c <=? 13) || (28 <=? c) && (c <=? 32)
   || (c =? 133) || (c =? 160) || (c =? 5760)
   || (8192 <=? c) && (c <=? 8202)
   || (c =? 8232) || (c =? 8233) || (c =? 8239) || (c =? 8287)
   || (c =? 12288))%N.

Fixpoint lstrip (s : pystr) : pystr :=
  match s with
  | [] => []
  | c :: t => if isspace c then lstrip t else s
  end.

Definition rstrip (s : pystr) : pystr := rev (lstrip (rev s)).

(** [s.strip()] *)
Definition strip (s : pystr) : pystr := rstrip (lstrip s).

Fixpoint startswith (s p : pystr) {struct p} : bool :=
  match p, s with
  | [], _ => true
  | _ :: _, [] => false
  | a :: p', b :: s' => (a =? b)%N && startswith s' p'
  end.

(** [s.endswith(p)] *)
Definition endswith (s p : pystr) : bool := startswith (rev s) (rev p).

(** [s.find(sep)]: the least index at which [sep] occurs in [s]. *)
Fixpoint find (sep s : pystr) : option nat :=
  if startswith s sep then Some 0%nat
  else match s with
       | [] => None
       | _ :: t => option_map S (find sep t)
       end.

(** [s.split(sep, 1)] for a non-empty separator: at most one cut, at the
    leftmost occurrence. *)
Definition split1 (sep s : pystr) : list pystr :=
  match find sep s with
  | Some i => [firstn i s; skipn (i + length sep) s]
  | None => [s]
  end.

(** [sep] occurs in [s]. *)
Definition contains (sep s : pystr) : Prop := exists a b, s = a ++ sep ++ b.

(** [pre] and [post] are the text around the first occurrence of [sep] in [s]. *)
Definition first_occurrence (sep s pre post : pystr) : Prop :=
  s = pre ++ sep ++ post /\
  forall a b, s = a ++ sep ++ b -> (length pre <= length a)%nat.

(** [xs[:k]] for a Python integer [k]; a negative bound counts from the end. *)
Definition slice_to {A} (xs : list A) (k : Z) : list A :=
  if (0 <=? k)%Z then firstn (Z.to_nat k) xs
  else firstn (length xs - Z.to_nat (- k)) xs.

(** [os.path.join(a, b)] on POSIX. *)
Definition path_join (a b : pystr) : pystr :=
  if startswith b (py "/") then b
  else if (length a =? 0)%nat || endswith a (py "/") then a ++ b
  else a ++ py "/" ++ b.

(** ** [str.encode()] and its failure

    [passage.encode()] encodes to UTF-8 and raises [UnicodeEncodeError] on a
    lone surrogate, which a [str] read from JSON may contain. *)

Definition is_surrogate (c : N) : bool := ((55296 <=? c) && (c <=? 57343))%N.

Definition utf8_of_point (c : N) : list N :=
  (if c <? 128 then [c]
   else if c <? 2048 then [192 + c / 64; 128 + c mod 64]
   else if c <? 65536 then [224 + c / 4096; 128 + (c / 64) mod 64; 128 + c mod 64]
   else [240 + c / 262144; 128 + (c / 4096) mod 64; 128 + (c / 64) mod 64;
         128 + c mod 64])%N.

(** The UTF-8 bytes of a string without surrogates. *)
Definition utf8 (s : pystr) : list N := flat_map utf8_of_point s.

Definition hex_digit (d : N) : N := (if d <? 10 then 48 + d else 87 + d)%N.

Definition hex4 (c : N) : pystr :=
  [hex_digit (c / 4096 mod 16); hex_digit (c / 256 mod 16);
   hex_digit (c / 16 mod 16); hex_digit (c mod 16)]%N.

Fixpoint surrogate_run (s : pystr) : nat :=
  match s with
  | c :: t => if is_surrogate c then S (surrogate_run t) else 0%nat
  | [] => 0%nat
  end.

(** [str(e)] of the [UnicodeEncodeError] raised at position [start] on the
    character [c], where the run of surrogates starting there has length
    [run]. *)
Definition encode_error_str (c : N) (start run : nat) : pystr :=
  if (run =? 1)%nat then
    py "'utf-8' codec can't encode character '\u" ++ hex4 c ++ py "' in position "
       ++ str_of_nat start ++ py ": surrogates not allowed"
  else
    py "'utf-8' codec can't encode characters in position " ++ str_of_nat start
       ++ py "-" ++ str_of_nat (start + run - 1) ++ py ": surrogates not allowed".

(** ** Exceptions and results *)

Record exn := Exception { exn_class : string; exn_str : pystr }.

Inductive result (A : Type) : Type :=
| Ok (a : A)
| Raise (e : exn).
Arguments Ok {A} a.
Arguments Raise {A} e.

Fixpoint encode_from (pos : nat) (s : pystr) : result (list N) :=
  match s with
  | [] => Ok []
  | c :: t =>
    if is_surrogate c then
      Raise (Exception "UnicodeEncodeError" (encode_error_str c pos (surrogate_run s)))
    else
      match encode_from (S pos) t with
      | Ok bs => Ok (utf8_of_point c ++ bs)
      | Raise e => Raise e
      end
  end.

(** [s.encode()] *)
Definition encode (s : pystr) : result (list N) := encode_from 0 s.

Definition encodable (s : pystr) : bool := forallb (fun c => negb (is_surrogate c)) s.

(** ** Python values returned to the transport layer *)

#[local] Unset Elimination Schemes.
Inductive pyval : Type :=
| VNone
| VBool (b : bool)
| VInt (z : Z)
| VFloat (q : Q)
| VStr (s : pystr)
| VList (l : list pyval)
| VDict (d : list (string * pyval)).
#[local] Set Elimination Schemes.

(** A [dict] with string keys, in insertion order. *)
Definition dict := list (string * pyval).

Fixpoint dict_get (k : string) (d : dict) : option pyval :=
  match d with
  | [] => None
  | (k', v) :: t => if String.eqb k k' then Some v else dict_get k t
  end.

Definition opt_str (o : option pystr) : pyval :=
  match o with Some s => VStr s | None => VNone end.

Definition opt_float (o : option Q) : pyval :=
  match o with Some q => VFloat q | None => VNone end.

(** ** The data model *)

(** Modelled from the spec: [LinearRAGConfig] is declared in [src/config.py]
    of the engine, outside the service sources; its fields are the keyword
    arguments of the construction in [initialize_config] (model selections
    and algorithm parameters, forwarded verbatim to the retrieval engine). *)
Record LinearRAGConfig (EM LM : Type) : Type := {
  dataset_name : pystr;
  embedding_model : EM;
  spacy_model : pystr;
  llm_model : LM;
  working_dir : pystr;
  max_workers : Z;
  retrieval_top_k : Z;
  max_iterations : Z;
  top_k_sentence : Z;
  passage_ratio : Q;
  passage_node_weight : Q;
  damping : Q;
  iteration_threshold : Q;
  batch_size : Z
}.

(** One element of the list returned by the engine's [retrieve]. *)
Record Retrieval : Type := {
  sorted_passage : list pystr;
  sorted_passage_scores : list Q
}.

Module ProgressInfo.
Record t : Type := {
  progress : Q;
  current_step : pystr;
  total_steps : Z;
  completed_steps : Z;
  message : pystr;
  status : pystr;
  start_time : option Q;
  error : option pystr
}.

(** [ProgressInfo()] *)
Definition fresh : t :=
  {| progress := 0.0; current_step := []; total_steps := 0; completed_steps := 0;
     message := []; status := py "idle"; start_time := None; error := None |}.
End ProgressInfo.

(** ** External collaborators

    The retrieval engine, the model runtimes, the clock, the file system and
    the digest are opaque to the service: each is a method of [Runtime]
    acting on the external [World].  Model and engine instances are handles;
    their mutable state lives in the world. *)
Class Runtime : Type := {
  World : Type;
  EmbeddingModel : Type;
  LLM : Type;
  Engine : Type;
  (** [SentenceTransformer(model_path, device="cuda")] *)
  SentenceTransformer : pystr -> World -> result EmbeddingModel * World;
  (** [LLM_Model(model_name)] *)
  LLM_Model : pystr -> World -> result LLM * World;
  (** [LinearRAG(global_config=config)] *)
  LinearRAG : option (LinearRAGConfig EmbeddingModel LLM) -> World -> result Engine * World;
  (** [engine.index(passages)] *)
  rag_index : Engine -> list pystr -> World -> result unit * World;
  (** [engine.retrieve(queries)], one query being [{question, answer}] *)
  rag_retrieve : Engine -> list (pystr * pystr) -> World -> result (list Retrieval) * World;
  (** [llm.infer(messages)], one message being [{role, content}] *)
  llm_infer : LLM -> list (pystr * pystr) -> World -> result pystr * World;
  (** [time.time()] and [datetime.now()] *)
  clock : World -> Q * World;
  (** [round(x, 2)] on a float *)
  round2 : Q -> Q;
  (** [hashlib.md5(bytes).hexdigest()] *)
  md5_hexdigest : list N -> pystr;
  os_path_exists : World -> pystr -> bool;
  os_path_isdir : World -> pystr -> bool;
  os_listdir : World -> pystr -> result (list pystr)
}.

Section Service.

Context {R : Runtime}.

Definition Config : Type := LinearRAGConfig EmbeddingModel LLM.

(** A registered observer: called with the progress object, it acts on the
    world and may raise.  The observers of the service (the progress hooks
    of the transport layer) read the object they are handed; an observer
    that writes to that object or calls back into the service is not
    covered by this type, and no property below speaks about one. *)
Definition Callback : Type := ProgressInfo.t -> World -> result unit * World.

Record LinearRAGService : Type := {
  progress : ProgressInfo.t;
  _rag_model : option Engine;
  _config : option Config;
  _embedding_model : option EmbeddingModel;
  _llm_model : option LLM;
  _current_dataset : option pystr;
  _progress_callbacks : list Callback
}.

(** [__init__] *)
Definition init : LinearRAGService :=
  {| progress := ProgressInfo.fresh; _rag_model := None; _config := None;
     _embedding_model := None; _llm_model := None; _current_dataset := None;
     _progress_callbacks := [] |}.

(** Instrumentation: the constructions of models and the values given to
    [progress.progress] (by [_notify_progress], or by installing a fresh
    [ProgressInfo]), in program order. *)
Inductive Event : Type :=
| EvSentenceTransformer (model_path : pystr)
| EvLLM_Model (model_name : pystr)
| EvProgress (p : Q).

Record Sys : Type := {
  svc : LinearRAGService;
  world : World;
  trace : list Event
}.

(** ** The state-and-exception monad

    A raised exception leaves the mutations made so far in place. *)
Definition M (A : Type) : Type := Sys -> result A * Sys.

Definition ret {A} (a : A) : M A := fun s => (Ok a, s).

Definition bind {A B} (m : M A) (k : A -> M B) : M B :=
  fun s => match m s with
           | (Ok a, s1) => k a s1
           | (Raise e, s1) => (Raise e, s1)
           end.

Definition raise {A} (e : exn) : M A := fun s => (Raise e, s).

(** [try: m  except Exception as e: h e] *)
Definition try_except {A} (m : M A) (h : exn -> M A) : M A :=
  fun s => match m s with
           | (Ok a, s1) => (Ok a, s1)
           | (Raise e, s1) => h e s1
           end.

Definition gets {A} (f : LinearRAGService -> A) : M A := fun s => (Ok (f (svc s)), s).

Definition modify (f : LinearRAGService -> LinearRAGService) : M unit :=
  fun s => (Ok tt, {| svc := f (svc s); world := world s; trace := trace s |}).

Definition emit (ev : Event) : M unit :=
  fun s => (Ok tt, {| svc := svc s; world := world s; trace := trace s ++ [ev] |}).

(** A call into an external collaborator. *)
Definition ext {A} (call : World -> result A * World) : M A :=
  fun s => let (r, w) := call (world s) in
           (r, {| svc := svc s; world := w; trace := trace s |}).

Definition observe {A} (f : World -> A) : M A := fun s => (Ok (f (world s)), s).

Definition lift {A} (r : result A) : M A := fun s => (r, s).

End Service.

Declare Scope monad_scope.
Delimit Scope monad_scope with monad.
Notation "x <- m ;; k" := (bind m (fun x => k))
  (at level 61, m at next level, right associativity) : monad_scope.
Notation "m ;; k" := (bind m (fun _ => k))
  (at level 61, right associativity) : monad_scope.
Open Scope monad_scope.

Section Operations.

Context {R : Runtime}.

(** ** Field updates *)

Definition with_progress (f : ProgressInfo.t -> ProgressInfo.t) (v : LinearRAGService)
  : LinearRAGService :=
  {| progress := f (progress v); _rag_model := _rag_model v; _config := _config v;
     _embedding_model := _embedding_model v; _llm_model := _llm_model v;
     _current_dataset := _current_dataset v;
     _progress_callbacks := _progress_callbacks v |}.

Definition set_progress (p : Q) (i : ProgressInfo.t) : ProgressInfo.t :=
  {| ProgressInfo.progress := p;
     ProgressInfo.current_step := ProgressInfo.current_step i;
     ProgressInfo.total_steps := ProgressInfo.total_steps i;
     ProgressInfo.completed_steps := ProgressInfo.completed_steps i;
     ProgressInfo.message := ProgressInfo.message i;
     ProgressInfo.status := ProgressInfo.status i;
     ProgressInfo.start_time := ProgressInfo.start_time i;
     ProgressInfo.error := ProgressInfo.error i |}.

Definition set_current_step (c : pystr) (i : ProgressInfo.t) : ProgressInfo.t :=
  {| ProgressInfo.progress := ProgressInfo.progress i;
     ProgressInfo.current_step := c;
     ProgressInfo.total_steps := ProgressInfo.total_steps i;
     ProgressInfo.completed_steps := ProgressInfo.completed_steps i;
     ProgressInfo.message := ProgressInfo.message i;
     ProgressInfo.status := ProgressInfo.status i;
     ProgressInfo.start_time := ProgressInfo.start_time i;
     ProgressInfo.error := ProgressInfo.error i |}.

Definition set_message (m : pystr) (i : ProgressInfo.t) : ProgressInfo.t :=
  {| ProgressInfo.progress := ProgressInfo.progress i;
     ProgressInfo.current_step := ProgressInfo.current_step i;
     ProgressInfo.total_steps := ProgressInfo.total_steps i;
     ProgressInfo.completed_steps := ProgressInfo.completed_steps i;
     ProgressInfo.message := m;
     ProgressInfo.status := ProgressInfo.status i;
     ProgressInfo.start_time := ProgressInfo.start_time i;
     ProgressInfo.error := ProgressInfo.error i |}.

Definition set_status (st : pystr) (i : ProgressInfo.t) : ProgressInfo.t :=
  {| ProgressInfo.progress := ProgressInfo.progress i;
     ProgressInfo.current_step := ProgressInfo.current_step i;
     ProgressInfo.total_steps := ProgressInfo.total_steps i;
     ProgressInfo.completed_steps := ProgressInfo.completed_steps i;
     ProgressInfo.message := ProgressInfo.message i;
     ProgressInfo.status := st;
     ProgressInfo.start_time := ProgressInfo.start_time i;
     ProgressInfo.error := ProgressInfo.error i |}.

Definition set_start_time (t : option Q) (i : ProgressInfo.t) : ProgressInfo.t :=
  {| ProgressInfo.progress := ProgressInfo.progress i;
     ProgressInfo.current_step := ProgressInfo.current_step i;
     ProgressInfo.total_steps := ProgressInfo.total_steps i;
     ProgressInfo.completed_steps := ProgressInfo.completed_steps i;
     ProgressInfo.message := ProgressInfo.message i;
     ProgressInfo.status := ProgressInfo.status i;
     ProgressInfo.start_time := t;
     ProgressInfo.error := ProgressInfo.error i |}.

Definition set_total_steps (n : Z) (i : ProgressInfo.t) : ProgressInfo.t :=
  {| ProgressInfo.progress := ProgressInfo.progress i;
     ProgressInfo.current_step := ProgressInfo.current_step i;
     ProgressInfo.total_steps := n;
     ProgressInfo.completed_steps := ProgressInfo.completed_steps i;
     ProgressInfo.message := ProgressInfo.message i;
     ProgressInfo.status := ProgressInfo.status i;
     ProgressInfo.start_time := ProgressInfo.start_time i;
     ProgressInfo.error := ProgressInfo.error i |}.

Definition set_error (e : option pystr) (i : ProgressInfo.t) : ProgressInfo.t :=
  {| ProgressInfo.progress := ProgressInfo.progress i;
     ProgressInfo.current_step := ProgressInfo.current_step i;
     ProgressInfo.total_steps := ProgressInfo.total_steps i;
     ProgressInfo.completed_steps := ProgressInfo.completed_steps i;
     ProgressInfo.message := ProgressInfo.message i;
     ProgressInfo.status := ProgressInfo.status i;
     ProgressInfo.start_time := ProgressInfo.start_time i;
     ProgressInfo.error := e |}.

Definition set_rag_model (e : option Engine) (v : LinearRAGService) : LinearRAGService :=
  {| progress := progress v; _rag_model := e; _config := _config v;
     _embedding_model := _embedding_model v; _llm_model := _llm_model v;
     _current_dataset := _current_dataset v;
     _progress_callbacks := _progress_callbacks v |}.

Definition set_config (c : option Config) (v : LinearRAGService) : LinearRAGService :=
  {| progress := progress v; _rag_model := _rag_model v; _config := c;
     _embedding_model := _embedding_model v; _llm_model := _llm_model v;
     _current_dataset := _current_dataset v;
     _progress_callbacks := _progress_callbacks v |}.

Definition set_embedding_model (m : option EmbeddingModel) (v : LinearRAGService)
  : LinearRAGService :=
  {| progress := progress v; _rag_model := _rag_model v; _config := _config v;
     _embedding_model := m; _llm_model := _llm_model v;
     _current_dataset := _current_dataset v;
     _progress_callbacks := _progress_callbacks v |}.

Definition set_llm_model (m : option LLM) (v : LinearRAGService) : LinearRAGService :=
  {| progress := progress v; _rag_model := _rag_model v; _config := _config v;
     _embedding_model := _embedding_model v; _llm_model := m;
     _current_dataset := _current_dataset v;
     _progress_callbacks := _progress_callbacks v |}.

Definition set_current_dataset (d : option pystr) (v : LinearRAGService)
  : LinearRAGService :=
  {| progress := progress v; _rag_model := _rag_model v; _config := _config v;
     _embedding_model := _embedding_model v; _llm_model := _llm_model v;
     _current_dataset := d;
     _progress_callbacks := _progress_callbacks v |}.

Definition add_callback (cb : Callback) (v : LinearRAGService) : LinearRAGService :=
  {| progress := progress v; _rag_model := _rag_model v; _config := _config v;
     _embedding_model := _embedding_model v; _llm_model := _llm_model v;
     _current_dataset := _current_dataset v;
     _progress_callbacks := _progress_callbacks v ++ [cb] |}.

(** [time.time()] and [datetime.now()]: a reading of the external clock. *)
Definition time_time : M Q :=
  fun s => let (t, w) := clock (world s) in
           (Ok t, {| svc := svc s; world := w; trace := trace s |}).

(** ** Progress tracker *)

(** The observer loop of [_notify_progress]: an observer's exception is
    logged and the loop goes on. *)
Fixpoint run_callbacks (cbs : list Callback) : M unit :=
  match cbs with
  | [] => ret tt
  | callback :: rest =>
    try_except (p <- gets progress ;; ext (callback p)) (fun _ => ret tt) ;;
    run_callbacks rest
  end.

Definition _notify_progress (p : Q) (step msg : pystr) : M unit :=
  modify (with_progress (set_progress p)) ;;
  emit (EvProgress p) ;;
  modify (with_progress (set_current_step step)) ;;
  modify (with_progress (set_message msg)) ;;
  cbs <- gets _progress_callbacks ;;
  run_callbacks cbs.

Definition register_progress_callback (cb : Callback) : M unit :=
  modify (add_callback cb).

(** ** Model cache *)

Definition load_embedding_model (model_path : pystr) : M EmbeddingModel :=
  cached <- gets _embedding_model ;;
  match cached with
  | Some m => ret m
  | None =>
    _notify_progress 0.1 (py "loading_embedding") (py "正在加载嵌入模型...") ;;
    emit (EvSentenceTransformer model_path) ;;
    m <- ext (SentenceTransformer model_path) ;;
    modify (set_embedding_model (Some m)) ;;
    ret m
  end.

Definition load_llm_model (model_name : pystr) : M LLM :=
  cached <- gets _llm_model ;;
  match cached with
  | Some m => ret m
  | None =>
    _notify_progress 0.2 (py "loading_llm") (py "正在加载LLM模型...") ;;
    emit (EvLLM_Model model_name) ;;
    m <- ext (LLM_Model model_name) ;;
    modify (set_llm_model (Some m)) ;;
    ret m
  end.

(** The algorithm parameters of [initialize_config], with their defaults. *)
Record Params : Type := {
  p_max_workers : Z;
  p_retrieval_top_k : Z;
  p_max_iterations : Z;
  p_top_k_sentence : Z;
  p_passage_ratio : Q;
  p_passage_node_weight : Q;
  p_damping : Q;
  p_iteration_threshold : Q;
  p_batch_size : Z
}.

Definition default_params : Params :=
  {| p_max_workers := 4; p_retrieval_top_k := 5; p_max_iterations := 3;
     p_top_k_sentence := 1; p_passage_ratio := 1.5; p_passage_node_weight := 0.05;
     p_damping := 0.5; p_iteration_threshold := 0.5; p_batch_size := 128 |}.

Definition initialize_config (name embedding_model_path spacy llm_model_name wd : pystr)
           (ps : Params) : M Config :=
  em <- load_embedding_model embedding_model_path ;;
  lm <- load_llm_model llm_model_name ;;
  let c : Config :=
    {| dataset_name := name; embedding_model := em; spacy_model := spacy;
       llm_model := lm; working_dir := wd;
       max_workers := p_max_workers ps; retrieval_top_k := p_retrieval_top_k ps;
       max_iterations := p_max_iterations ps; top_k_sentence := p_top_k_sentence ps;
       passage_ratio := p_passage_ratio ps;
       passage_node_weight := p_passage_node_weight ps;
       damping := p_damping ps; iteration_threshold := p_iteration_threshold ps;
       batch_size := p_batch_size ps |} in
  modify (set_config (Some c)) ;;
  ret c.

(** ** Indexing orchestrator *)

Definition process_documents (passages : list pystr) (name : pystr)
           (config : option Config) (progress_callback : option Callback) : M dict :=
  match progress_callback with
  | Some cb => register_progress_callback cb
  | None => ret tt
  end ;;
  modify (with_progress (set_status (py "running"))) ;;
  now <- time_time ;;
  modify (with_progress (set_start_time (Some now))) ;;
  modify (with_progress (set_total_steps 4)) ;;
  try_except
    (_notify_progress 0.05 (py "initializing") (py "正在初始化数据集: " ++ name) ;;
     config <- match config with
               | None => gets _config
               | Some c => ret (Some c)
               end ;;
     modify (set_current_dataset (Some name)) ;;
     _notify_progress 0.15 (py "creating_rag") (py "正在创建LinearRAG实例...") ;;
     engine <- ext (LinearRAG config) ;;
     modify (set_rag_model (Some engine)) ;;
     _notify_progress 0.25 (py "indexing")
       (py "正在索引 " ++ str_of_nat (length passages) ++ py " 个文档...") ;;
     ext (rag_index engine passages) ;;
     _notify_progress 1.0 (py "completed")
       (py "索引完成! 共处理 " ++ str_of_nat (length passages) ++ py " 个文档") ;;
     modify (with_progress (set_status (py "completed"))) ;;
     ret [("success", VBool true);
          ("message", VStr (py "成功索引 " ++ str_of_nat (length passages) ++ py " 个文档"));
          ("documents_count", VInt (Z.of_nat (length passages)));
          ("dataset_name", VStr name)])
    (fun e =>
       modify (with_progress (set_status (py "error"))) ;;
       modify (with_progress (set_error (Some (exn_str e)))) ;;
       _notify_progress 0 (py "error") (py "处理失败: " ++ exn_str e) ;;
       ret [("success", VBool false);
            ("message", VStr (py "处理失败: " ++ exn_str e));
            ("error", VStr (exn_str e))]).

(** ** Query pipeline *)

Definition system_prompt : pystr :=
  py "As an advanced reading comprehension assistant, your task is to analyze text passages and corresponding questions meticulously. Your response start after "
  ++ [34%N] ++ py "Thought: " ++ [34%N]
  ++ py ", where you will methodically break down the reasoning process, illustrating how you arrive at conclusions. Conclude with "
  ++ [34%N] ++ py "Answer: " ++ [34%N]
  ++ py " to present a concise, definitive response, devoid of additional elaborations.".

(** One entry of [retrieved_documents]. *)
Definition retrieved_document (passage : pystr) (score : Q) : result pyval :=
  match encode passage with
  | Ok bytes =>
    Ok (VDict [("content", VStr passage); ("score", VFloat score);
               ("passage_id", VStr (firstn 8 (md5_hexdigest bytes)))])
  | Raise e => Raise e
  end.

(** The entry built for a passage that encodes. *)
Definition document_entry (p : pystr * Q) : pyval :=
  VDict [("content", VStr (fst p)); ("score", VFloat (snd p));
         ("passage_id", VStr (firstn 8 (md5_hexdigest (utf8 (fst p)))))].

(** The loop over [zip(sorted_passage, sorted_passage_scores)]. *)
Fixpoint format_documents (pairs : list (pystr * Q)) : result (list pyval) :=
  match pairs with
  | [] => Ok []
  | (passage, score) :: rest =>
    match retrieved_document passage score with
    | Ok d => match format_documents rest with
              | Ok ds => Ok (d :: ds)
              | Raise e => Raise e
              end
    | Raise e => Raise e
    end
  end.

(** [a, b = xs] *)
Definition unpack2 {A} (xs : list A) : result (A * A) :=
  match xs with
  | [a; b] => Ok (a, b)
  | _ :: _ :: _ :: _ =>
    Raise (Exception "ValueError" (py "too many values to unpack (expected 2)"))
  | _ =>
    Raise (Exception "ValueError"
             (py "not enough values to unpack (expected 2, got "
              ++ str_of_nat (length xs) ++ py ")"))
  end.

(** The answer parse of [query]: the pair [(thought, answer)]. *)
Definition parse_response (response : pystr) : pystr * pystr :=
  match unpack2 (split1 (py "Answer:") response) with
  | Ok (thought_part, answer_part) => (strip thought_part, strip answer_part)
  | Raise _ => ([], strip response)
  end.

Definition prompt_user (passages : list pystr) (question : pystr) (top_k : Z) : pystr :=
  fold_left (fun acc passage => acc ++ passage ++ [10%N]) (slice_to passages top_k) []
  ++ py "Question: " ++ question ++ [10%N] ++ py " Thought: ".

Definition ms (t1 t0 : Q) : Q := (t1 - t0) * 1000.

(** The body of the [try] block of [query]. *)
Definition query_try (engine : Engine) (start_time : Q) (question : pystr) (top_k : Z)
           (use_llm : bool) : M dict :=
  modify (with_progress (set_status (py "querying"))) ;;
  results <- ext (rag_retrieve engine [(question, [])]) ;;
  retrieval_result <-
    match results with
    | r :: _ => ret r
    | [] => raise (Exception "IndexError" (py "list index out of range"))
    end ;;
  t1 <- time_time ;;
  let retrieval_time := ms t1 start_time in
  retrieved_documents <-
    lift (format_documents (combine (sorted_passage retrieval_result)
                                    (sorted_passage_scores retrieval_result))) ;;
  generated <-
    (if use_llm then
       llm_start <- time_time ;;
       let messages :=
         [(py "system", system_prompt);
          (py "user", prompt_user (sorted_passage retrieval_result) question top_k)] in
       llm <- gets _llm_model ;;
       response <-
         match llm with
         | Some l => ext (llm_infer l messages)
         | None =>
           raise (Exception "AttributeError"
                    (py "'NoneType' object has no attribute 'infer'"))
         end ;;
       let (thought, answer) := parse_response response in
       t2 <- time_time ;;
       ret (Some answer, Some thought, ms t2 llm_start)
     else ret (None, None, 0)) ;;
  let '(answer, thought, llm_time) := generated in
  t3 <- time_time ;;
  let total_time := ms t3 start_time in
  modify (with_progress (set_status (py "completed"))) ;;
  ret [("success", VBool true);
       ("question", VStr question);
       ("answer", opt_str answer);
       ("thought", opt_str thought);
       ("retrieved_documents", VList retrieved_documents);
       ("retrieval_time_ms", VFloat (round2 retrieval_time));
       ("llm_time_ms", if use_llm then VFloat (round2 llm_time) else VNone);
       ("total_time_ms", VFloat (round2 total_time))].

Definition index_not_built : dict :=
  [("success", VBool false);
   ("error", VStr (py "索引未构建，请先处理文档"))].

Definition query_failure (question : pystr) (e : exn) : dict :=
  [("success", VBool false);
   ("question", VStr question);
   ("error", VStr (exn_str e))].

Definition query (question : pystr) (top_k : Z) (use_llm : bool) : M dict :=
  rag <- gets _rag_model ;;
  match rag with
  | None => ret index_not_built
  | Some engine =>
    start_time <- time_time ;;
    try_except
      (query_try engine start_time question top_k use_llm)
      (fun e =>
         modify (with_progress (set_status (py "error"))) ;;
         ret (query_failure question e))
  end.

(** The loop of [batch_query]. *)
Fixpoint query_each (questions : list pystr) (top_k : Z) (use_llm : bool)
  : M (list dict) :=
  match questions with
  | [] => ret []
  | question :: rest =>
    r <- query question top_k use_llm ;;
    rs <- query_each rest top_k use_llm ;;
    ret (r :: rs)
  end.

Definition batch_query (questions : list pystr) (top_k : Z) (use_llm : bool) : M dict :=
  start_time <- time_time ;;
  results <- query_each questions top_k use_llm ;;
  t <- time_time ;;
  ret [("success", VBool true);
       ("results", VList (map VDict results));
       ("total_time_ms", VFloat (round2 (ms t start_time)));
       ("questions_count", VInt (Z.of_nat (length questions)))].

(** ** Dataset registry *)

Definition has_parquet (files : list pystr) : bool :=
  existsb (fun f => endswith f (py ".parquet")) files.

(** The loop of [get_datasets] over the entries of the working root. *)
Fixpoint scan_datasets (wd : pystr) (items : list pystr) : M (list pystr) :=
  match items with
  | [] => ret []
  | item :: rest =>
    let item_path := path_join wd item in
    isdir <- observe (fun w => os_path_isdir w item_path) ;;
    if isdir then
      files <- bind (observe (fun w => os_listdir w item_path)) lift ;;
      found <- scan_datasets wd rest ;;
      ret (if has_parquet files then item :: found else found)
    else scan_datasets wd rest
  end.

Definition get_datasets : M (list pystr) :=
  config <- gets _config ;;
  match config with
  | None => ret []
  | Some c =>
    let wd := working_dir c in
    present <- observe (fun w => os_path_exists w wd) ;;
    if negb present then ret []
    else
      items <- bind (observe (fun w => os_listdir w wd)) lift ;;
      scan_datasets wd items
  end.

(** The dataset [n] is on storage under the working root [wd], as the
    listing sees it: the root exists and can be read (its entries, and every
    directory among them, can be listed), and [n] is one of its directories
    and holds a [.parquet] file. *)
Definition stored (w : World) (wd n : pystr) : Prop :=
  os_path_exists w wd = true /\
  exists items,
    os_listdir w wd = Ok items /\
    (forall i, In i items -> os_path_isdir w (path_join wd i) = true ->
               exists files, os_listdir w (path_join wd i) = Ok files) /\
    In n items /\
    os_path_isdir w (path_join wd n) = true /\
    exists files, os_listdir w (path_join wd n) = Ok files /\ has_parquet files = true.

(** Modelled from the spec: the retrieval engine ([src/LinearRAG.py]) is
    outside the service sources.  By the data model of the specification a
    dataset is "created by the Indexing Orchestrator on first successful
    index build" and is laid out as "one directory per dataset name under a
    configured working root" holding an index artifact; the engine is given
    nothing but its configuration, so a successful [index] of an engine
    built for [cfg] leaves the dataset named in [cfg] under the working
    root of [cfg]. *)
Definition persists (cfg : Config) : Prop :=
  forall (w0 w1 w2 w3 : World) (engine : Engine) (passages : list pystr),
    LinearRAG (Some cfg) w0 = (Ok engine, w1) ->
    rag_index engine passages w2 = (Ok tt, w3) ->
    stored w3 (working_dir cfg) (dataset_name cfg).

(** An observer that leaves the dataset [n] under [wd] in place. *)
Definition keeps_storage (wd n : pystr) (cb : Callback) : Prop :=
  forall (p : ProgressInfo.t) (w : World), stored w wd n -> stored (snd (cb p w)) wd n.

Definition clear : M unit :=
  modify (set_rag_model None) ;;
  modify (set_config None) ;;
  modify (set_current_dataset None) ;;
  modify (with_progress (fun _ => ProgressInfo.fresh)) ;;
  emit (EvProgress (ProgressInfo.progress ProgressInfo.fresh)).

Definition load_existing_dataset (name embedding_model_path spacy llm_model_name wd : pystr)
  : M bool :=
  try_except
    (let dataset_path := path_join wd name in
     present <- observe (fun w => os_path_exists w dataset_path) ;;
     if negb present then ret false
     else
       files <- bind (observe (fun w => os_listdir w dataset_path)) lift ;;
       if negb (has_parquet files) then ret false
       else
         initialize_config name embedding_model_path spacy llm_model_name wd
                           default_params ;;
         config <- gets _config ;;
         engine <- ext (LinearRAG config) ;;
         modify (set_rag_model (Some engine)) ;;
         modify (set_current_dataset (Some name)) ;;
         modify (with_progress (set_status (py "ready"))) ;;
         ret true)
    (fun _ => ret false).

(** The number of times the embedding model was constructed. *)
Fixpoint constructions (t : list Event) : nat :=
  match t with
  | [] => 0
  | EvSentenceTransformer _ :: t' => S (constructions t')
  | _ :: t' => constructions t'
  end.

(** ** Closed forms used to reason about the progress tracker *)

(** The world after the observers in [cbs] ran on the progress object [p]. *)
Definition observers_world (cbs : list Callback) (p : ProgressInfo.t) (w : World) : World :=
  fold_left (fun w cb => snd (cb p w)) cbs w.

(** The state [_notify_progress p step msg] leaves. *)
Definition notified (p : Q) (step msg : pystr) (s : Sys) : Sys :=
  let v := with_progress (set_message msg)
             (with_progress (set_current_step step)
                (with_progress (set_progress p) (svc s))) in
  {| svc := v;
     world := observers_world (_progress_callbacks v) (progress v) (world s);
     trace := trace s ++ [EvProgress p] |}.

Definition status_of (s : Sys) : pystr := ProgressInfo.status (progress (svc s)).

(** A computation whose every run relates the state before to the state
    after by [P]. *)
Definition respects (P : Sys -> Sys -> Prop) {A} (m : M A) : Prop :=
  forall s, P s (snd (m s)).

(** From [s] to [s'] a cached embedding model stays the same instance and
    no embedding model is constructed. *)
Definition stable (s s' : Sys) : Prop :=
  forall m, _embedding_model (svc s) = Some m ->
            _embedding_model (svc s') = Some m /\
            constructions (trace s') = constructions (trace s).

(** ** The operations offered to the transport layer *)

Inductive Op : Type :=
| Register (cb : Callback)
| LoadEmbeddingModel (model_path : pystr)
| LoadLlmModel (model_name : pystr)
| InitializeConfig (name embedding_model_path spacy llm_model_name wd : pystr) (ps : Params)
| ProcessDocuments (passages : list pystr) (name : pystr) (config : option Config)
                   (progress_callback : option Callback)
| Query (question : pystr) (top_k : Z) (use_llm : bool)
| BatchQuery (questions : list pystr) (top_k : Z) (use_llm : bool)
| GetDatasets
| Clear
| LoadExistingDataset (name embedding_model_path spacy llm_model_name wd : pystr).

(** The state a call leaves behind; its value or exception goes to the
    caller. *)
Definition call (o : Op) (s : Sys) : Sys :=
  match o with
  | Register cb => snd (register_progress_callback cb s)
  | LoadEmbeddingModel p => snd (load_embedding_model p s)
  | LoadLlmModel n => snd (load_llm_model n s)
  | InitializeConfig n e sp l wd ps => snd (initialize_config n e sp l wd ps s)
  | ProcessDocuments ps n c cb => snd (process_documents ps n c cb s)
  | Query q k u => snd (query q k u s)
  | BatchQuery qs k u => snd (batch_query qs k u s)
  | GetDatasets => snd (get_datasets s)
  | Clear => snd (clear s)
  | LoadExistingDataset n e sp l wd => snd (load_existing_dataset n e sp l wd s)
  end.

Definition calls (os : list Op) (s : Sys) : Sys := fold_left (fun s o => call o s) os s.

(** The values [progress.progress] took, in order. *)
Fixpoint progress_values (t : list Event) : list Q :=
  match t with
  | [] => []
  | EvProgress p :: t' => p :: progress_values t'
  | _ :: t' => progress_values t'
  end.

(** The events a call adds to the trace. *)
Definition events_of (o : Op) (s : Sys) : list Event :=
  skipn (length (trace s)) (trace (call o s)).

(** The service at process start. *)
Definition boot (w : World) : Sys := {| svc := init; world := w; trace := [] |}.

End Operations.

(** ** Properties of sequences of progress values *)

Fixpoint nondecreasing (l : list Q) : bool :=
  match l with
  | a :: (b :: _) as t => Qle_bool a b && nondecreasing t
  | _ => true
  end.

Definition in_unit_interval (l : list Q) : bool :=
  forallb (fun p => Qle_bool 0 p && Qle_bool p 1) l.

(** ** Reading a result dictionary *)

Definition absent (k : string) (d : dict) : Prop :=
  dict_get k d = None \/ dict_get k d = Some VNone.

Definition document_content (v : pyval) : option pystr :=
  match v with
  | VDict d => match dict_get "content" d with
               | Some (VStr s) => Some s
               | _ => None
               end
  | _ => None
  end.

Definition document_score (v : pyval) : option Q :=
  match v with
  | VDict d => match dict_get "score" d with
               | Some (VFloat q) => Some q
               | _ => None
               end
  | _ => None
  end.

(** ** Upload parsing ([parse_chunks_from_json] of the transport layer) *)

(** [type(v).__name__] of a decoded JSON value. *)
Definition type_name (v : pyval) : pystr :=
  match v with
  | VNone => py "NoneType"
  | VBool _ => py "bool"
  | VInt _ => py "int"
  | VFloat _ => py "float"
  | VStr _ => py "str"
  | VList _ => py "list"
  | VDict _ => py "dict"
  end.

(** [for x in v]: a list yields its items, a string its characters, a
    dictionary its keys; anything else is not iterable. *)
Definition iterate (v : pyval) : result (list pyval) :=
  match v with
  | VList l => Ok l
  | VStr s => Ok (map (fun c => VStr [c]) s)
  | VDict d => Ok (map (fun kv => VStr (py (fst kv))) d)
  | _ => Raise (Exception "TypeError"
                  (py "'" ++ type_name v ++ py "' object is not iterable"))
  end.

(** The value under the first of [keys] that the dictionary has. *)
Fixpoint first_present (keys : list string) (d : dict) : option pyval :=
  match keys with
  | [] => None
  | k :: ks =>
    match dict_get k d with
    | Some v => Some v
    | None => first_present ks d
    end
  end.

(** What one element of the upload appends to [passages]: a string is
    taken as it is, a dictionary gives its value under the first accepted
    key, anything else is skipped. *)
Definition item_passage (keys : list string) (item : pyval) : list pyval :=
  match item with
  | VStr _ => [item]
  | VDict d =>
    match first_present keys d with
    | Some v => [v]
    | None => []
    end
  | _ => []
  end.

(** One of the loops over a field of a dictionary upload. *)
Definition field_passages (keys : list string) (v : pyval) : result (list pyval) :=
  match iterate v with
  | Ok xs => Ok (flat_map (item_passage keys) xs)
  | Raise e => Raise e
  end.

(** The body of the [try] block after [json.loads]. *)
Definition passages_of_data (data : pyval) : result (list pyval) :=
  match data with
  | VList items => Ok (flat_map (item_passage ["text"; "content"; "chunk"]) items)
  | VDict d =>
    match dict_get "chunks" d with
    | Some v => field_passages ["text"] v
    | None =>
      match dict_get "documents" d with
      | Some v => field_passages ["content"] v
      | None =>
        match dict_get "passages" d with
        | Some v => field_passages ["text"] v
        | None => Ok []
        end
      end
    end
  | _ => Ok []
  end.

(** [parse_chunks_from_json(content)], with [json.loads(content.decode('utf-8'))]
    as the parameter [json_loads]. *)
Definition parse_chunks_from_json (json_loads : list N -> result pyval) (content : list N)
  : result (list pyval) :=
  match match json_loads content with
        | Ok data => passages_of_data data
        | Raise e => Raise e
        end with
  | Ok passages => Ok passages
  | Raise e => Raise (Exception "ValueError" (py "解析JSON文件失败: " ++ exn_str e))
  end.

(** ** A small runtime on which the operations can be run

    The engine answers every query with the same two ranked passages, the
    language model with a fixed reply, the engine cannot be built without a
    configuration, and the working root [./import] holds the dataset
    directory [wiki5] with one parquet artifact. *)
Module Demo.

Definition doc1 : pystr := py "doc1 text".
Definition doc2 : pystr := py "doc2 text".

Definition ranked : Retrieval :=
  {| sorted_passage := [doc1; doc2]; sorted_passage_scores := [0.9; 0.4] |}.

Definition reply : pystr := py " doc1 is the first document. Answer: doc1 ".

Definition runtime : Runtime :=
  {| World := nat;
     EmbeddingModel := pystr;
     LLM := pystr;
     Engine := pystr;
     SentenceTransformer := fun path w => (Ok path, w);
     LLM_Model := fun name w => (Ok name, w);
     LinearRAG := fun config w =>
       match config with
       | Some c => (Ok (dataset_name c), w)
       | None =>
         (Raise (Exception "AttributeError"
                   (py "'NoneType' object has no attribute 'working_dir'")), w)
       end;
     rag_index := fun _ _ w => (Ok tt, w);
     rag_retrieve := fun _ queries w => (Ok (map (fun _ => ranked) queries), w);
     llm_infer := fun _ _ w => (Ok reply, w);
     clock := fun w => (inject_Z (Z.of_nat w), S w);
     round2 := fun x => x;
     md5_hexdigest := fun _ => py "9e107d9d372bb6826bd81d3542a419d6";
     os_path_exists := fun _ _ => true;
     os_path_isdir := fun _ p => negb (endswith p (py ".parquet"));
     os_listdir := fun _ p =>
       if list_eq_dec N.eq_dec p (py "./import") then Ok [py "wiki5"]
       else Ok [py "passage_embedding.parquet"] |}.

Definition config : @Config runtime :=
  {| dataset_name := py "wiki5"; embedding_model := py "model/all-mpnet-base-v2";
     spacy_model := py "en_core_web_trf"; llm_model := py "gpt-4o-mini";
     working_dir := py "./import"; max_workers := 4; retrieval_top_k := 5;
     max_iterations := 3; top_k_sentence := 1; passage_ratio := 1.5;
     passage_node_weight := 0.05; damping := 0.5; iteration_threshold := 0.5;
     batch_size := 128 |}.

(** The service at process start. *)
Definition fresh : @Sys runtime := @boot runtime 0%nat.

(** The service after [wiki5] was indexed under an explicit configuration. *)
Definition indexed : @Sys runtime :=
  @call runtime (@ProcessDocuments runtime [doc1; doc2] (py "wiki5") (Some config) None)
        fresh.

(** The service after [wiki5] was loaded from the working root. *)
Definition loaded : @Sys runtime :=
  @call runtime
        (@LoadExistingDataset runtime (py "wiki5") (py "model/all-mpnet-base-v2")
           (py "en_core_web_trf") (py "gpt-4o-mini") (py "./import"))
        fresh.

End Demo.

(** * Properties *)

(** ** Strings *)

Example py_chinese : py "索引" = [32034; 24341]%N.
Proof. reflexivity. Qed.

Example split1_marker :
  split1 (py "Answer:") (py "a Answer: b Answer: c") = [py "a "; py " b Answer: c"].
Proof. reflexivity. Qed.

Example strip_unicode_space : strip ([160; 32] ++ py "x y" ++ [10; 12288])%N = py "x y".
Proof. reflexivity. Qed.

Example encode_surrogate :
  encode (py "ab" ++ [55296%N]) =
  Raise (Exception "UnicodeEncodeError"
           (py "'utf-8' codec can't encode character '\ud800' in position 2: surrogates not allowed")).
Proof. vm_compute. reflexivity. Qed.

Example demo_indexed_status :
  ProgressInfo.status (progress (svc Demo.indexed)) = py "completed".
Proof. reflexivity. Qed.

Example demo_loaded_status :
  ProgressInfo.status (progress (svc Demo.loaded)) = py "ready".
Proof. reflexivity. Qed.

Lemma startswith_iff (s p : pystr) :
  startswith s p = true <-> exists t, s = p ++ t.
Proof.
  revert s; induction p as [|a p IH]; intros s; simpl.
  - split; [intros _; now exists s | reflexivity].
  - destruct s as [|b s].
    + split; [discriminate | intros [t H]; discriminate].
    + rewrite andb_true_iff, N.eqb_eq, IH. split.
      * intros [-> [t ->]]. now exists t.
      * intros [t H]. injection H as -> ->. split; [reflexivity | now exists t].
Qed.

Lemma find_none (sep s : pystr) : find sep s = None -> ~ contains sep s.
Proof.
  induction s as [|c s IH]; simpl.
  - destruct (startswith [] sep) eqn:E; [discriminate|].
    intros _ [a [b H]]. destruct a; simpl in H.
    + assert (startswith [] sep = true) by (apply startswith_iff; now exists b).
      congruence.
    + discriminate.
  - destruct (startswith (c :: s) sep) eqn:E; [discriminate|].
    destruct (find sep s) eqn:F; [discriminate|].
    intros _ [a [b H]]. destruct a as [|c' a]; simpl in H.
    + assert (startswith (c :: s) sep = true) by (apply startswith_iff; now exists b).
      congruence.
    + injection H as _ H. apply IH; [reflexivity | now exists a, b].
Qed.

Lemma find_some (sep s : pystr) (i : nat) :
  find sep s = Some i ->
  first_occurrence sep s (firstn i s) (skipn (i + length sep) s).
Proof.
  revert i; induction s as [|c s IH]; intros i; simpl.
  - destruct (startswith [] sep) eqn:E; [|discriminate].
    intros [= <-]. apply startswith_iff in E as [t E].
    destruct sep; [|discriminate]. simpl in *. subst t.
    split; [reflexivity | intros; simpl; lia].
  - destruct (startswith (c :: s) sep) eqn:E.
    + intros [= <-]. apply startswith_iff in E as [t E]. simpl.
      split; [|intros; simpl; lia].
      rewrite E. now rewrite skipn_app, skipn_all, Nat.sub_diag.
    + destruct (find sep s) as [j|] eqn:F; [|discriminate].
      intros [= <-]. destruct (IH j eq_refl) as [H1 H2]. split.
      * simpl. now rewrite <- H1.
      * intros a b H. destruct a as [|c' a]; simpl in H.
        -- assert (startswith (c :: s) sep = true) by (apply startswith_iff; now exists b).
           congruence.
        -- injection H as _ H. specialize (H2 a b H).
           rewrite firstn_cons. simpl. rewrite length_firstn in *. lia.
Qed.

Lemma first_occurrence_unique (sep s pre post pre' post' : pystr) :
  first_occurrence sep s pre post -> first_occurrence sep s pre' post' ->
  pre = pre' /\ post = post'.
Proof.
  intros [H1 M1] [H2 M2].
  assert (L : length pre = length pre').
  { specialize (M1 _ _ H2). specialize (M2 _ _ H1). lia. }
  assert (P : pre = pre').
  { assert (firstn (length pre) s = pre) by (rewrite H1; now rewrite firstn_app, firstn_all, Nat.sub_diag, app_nil_r).
    assert (firstn (length pre') s = pre') by (rewrite H2; now rewrite firstn_app, firstn_all, Nat.sub_diag, app_nil_r).
    congruence. }
  split; [exact P|]. subst pre'. rewrite H1 in H2.
  apply app_inv_head in H2. now apply app_inv_head in H2.
Qed.

Lemma lstrip_split (s : pystr) :
  exists l, s = l ++ lstrip s /\ forallb isspace l = true.
Proof.
  induction s as [|c s [l [H1 H2]]]; simpl.
  - now exists [].
  - destruct (isspace c) eqn:E.
    + exists (c :: l). simpl. rewrite E, H2. split; [now f_equal | reflexivity].
    + now exists [].
Qed.

Lemma lstrip_head (s : pystr) (c : N) (t : pystr) :
  lstrip s = c :: t -> isspace c = false.
Proof.
  induction s as [|a s IH]; simpl; [discriminate|].
  destruct (isspace a) eqn:E; [exact IH|]. now intros [= <- _].
Qed.

Lemma rstrip_split (s : pystr) :
  exists r, s = rstrip s ++ r /\ forallb isspace r = true.
Proof.
  unfold rstrip. destruct (lstrip_split (rev s)) as [l [H1 H2]].
  exists (rev l). split.
  - rewrite <- rev_app_distr, <- H1. now rewrite rev_involutive.
  - rewrite forallb_forall in *. intros x Hx. apply H2. now apply in_rev.
Qed.

Lemma rstrip_last (s t : pystr) (c : N) :
  rstrip s = t ++ [c] -> isspace c = false.
Proof.
  unfold rstrip. intros H. apply (f_equal (@rev N)) in H.
  rewrite rev_involutive, rev_app_distr in H. simpl in H.
  now apply lstrip_head in H.
Qed.

(** [strip] removes exactly the leading and the trailing whitespace. *)
Lemma strip_spec (s : pystr) :
  exists l r, s = l ++ strip s ++ r /\
              forallb isspace l = true /\ forallb isspace r = true /\
              (forall c t, strip s = c :: t -> isspace c = false) /\
              (forall t c, strip s = t ++ [c] -> isspace c = false).
Proof.
  unfold strip. destruct (lstrip_split s) as [l [H1 H2]].
  destruct (rstrip_split (lstrip s)) as [r [H3 H4]].
  exists l, r. repeat split; try assumption.
  - now rewrite <- H3.
  - intros c t H. rewrite H in H3. simpl in H3. now apply lstrip_head in H3.
  - intros t c. apply rstrip_last.
Qed.

(** ** The answer parse *)

Lemma parse_response_marker (response pre post : pystr) :
  first_occurrence (py "Answer:") response pre post ->
  parse_response response = (strip pre, strip post).
Proof.
  intros H. unfold parse_response, split1.
  set (m := py "Answer:") in *.
  destruct (find m response) as [i|] eqn:F.
  - apply find_some in F.
    destruct (first_occurrence_unique F H) as [-> ->]. reflexivity.
  - apply find_none in F. destruct H as [H _]. exfalso. apply F. now exists pre, post.
Qed.

Lemma parse_response_no_marker (response : pystr) :
  ~ contains (py "Answer:") response ->
  parse_response response = ([], strip response).
Proof.
  intros H. unfold parse_response, split1.
  set (m := py "Answer:") in *.
  destruct (find m response) as [i|] eqn:F; [|reflexivity].
  apply find_some in F. destruct F as [F _]. exfalso. apply H.
  now exists (firstn i response), (skipn (i + length m) response).
Qed.

(** ** Result entries *)

Lemma encode_from_ok (s : pystr) (pos : nat) :
  encodable s = true -> encode_from pos s = Ok (utf8 s).
Proof.
  revert pos; induction s as [|c s IH]; intros pos; simpl; [reflexivity|].
  unfold encodable in *. simpl. rewrite andb_true_iff, negb_true_iff.
  intros [-> H]. now rewrite IH.
Qed.

Lemma encode_from_raises (s : pystr) (pos : nat) :
  encodable s = false -> exists e, encode_from pos s = Raise e.
Proof.
  revert pos; induction s as [|c s IH]; intros pos; simpl; [discriminate|].
  unfold encodable in *. simpl. destruct (is_surrogate c); simpl; [eauto|].
  intros H. destruct (IH (S pos) H) as [e ->]. eauto.
Qed.

Section Entries.

Context {R : Runtime}.

Lemma format_documents_ok (pairs : list (pystr * Q)) :
  forallb encodable (map fst pairs) = true ->
  format_documents pairs = Ok (map document_entry pairs).
Proof.
  induction pairs as [|[p sc] pairs IH]; simpl; [reflexivity|].
  rewrite andb_true_iff. intros [H1 H2].
  unfold retrieved_document, encode. rewrite (encode_from_ok _ _ H1), (IH H2).
  reflexivity.
Qed.

Lemma document_entry_content (pairs : list (pystr * Q)) :
  map document_content (map document_entry pairs) = map (fun p => Some (fst p)) pairs.
Proof. induction pairs as [|p pairs IH]; simpl; [reflexivity | now rewrite IH]. Qed.

Lemma document_entry_score (pairs : list (pystr * Q)) :
  map document_score (map document_entry pairs) = map (fun p => Some (snd p)) pairs.
Proof. induction pairs as [|p pairs IH]; simpl; [reflexivity | now rewrite IH]. Qed.

End Entries.

Lemma combine_fst {A B} (l : list A) (l' : list B) :
  map fst (combine l l') = firstn (length l') l.
Proof.
  revert l'; induction l as [|a l IH]; intros [|b l']; simpl; try reflexivity.
  now rewrite IH.
Qed.

Lemma combine_snd {A B} (l : list A) (l' : list B) :
  map snd (combine l l') = firstn (length l) l'.
Proof.
  revert l'; induction l as [|a l IH]; intros [|b l']; simpl; try reflexivity.
  now rewrite IH.
Qed.

(** ** The monad and the progress tracker *)

Ltac msimpl :=
  cbv beta iota zeta delta
      [bind ret gets modify emit ext try_except raise lift observe time_time
       register_progress_callback];
  cbn [svc world trace fst snd].

Section Tracker.

Context {R : Runtime}.

Lemma run_callbacks_eq (cbs : list Callback) (s : Sys) :
  run_callbacks cbs s =
  (Ok tt, {| svc := svc s;
             world := observers_world cbs (progress (svc s)) (world s);
             trace := trace s |}).
Proof.
  revert s; induction cbs as [|cb cbs IH]; intros s.
  - destruct s; reflexivity.
  - cbn [run_callbacks]. msimpl.
    destruct (cb (progress (svc s)) (world s)) as [[u|e] w] eqn:E;
      rewrite IH; unfold observers_world; simpl; rewrite E; reflexivity.
Qed.

Lemma notify_eq (p : Q) (step msg : pystr) (s : Sys) :
  _notify_progress p step msg s = (Ok tt, notified p step msg s).
Proof.
  unfold _notify_progress. msimpl. rewrite run_callbacks_eq. reflexivity.
Qed.

Lemma notified_trace (p : Q) (step msg : pystr) (s : Sys) :
  trace (notified p step msg s) = trace s ++ [EvProgress p].
Proof. reflexivity. Qed.

Lemma notified_status (p : Q) (step msg : pystr) (s : Sys) :
  status_of (notified p step msg s) = status_of s.
Proof. reflexivity. Qed.

Lemma constructions_app (t u : list Event) :
  constructions (t ++ u) = (constructions t + constructions u)%nat.
Proof.
  induction t as [|[?|?|?] t IH]; simpl; rewrite ?IH; reflexivity.
Qed.

Lemma progress_values_app (t u : list Event) :
  progress_values (t ++ u) = progress_values t ++ progress_values u.
Proof.
  induction t as [|[?|?|?] t IH]; simpl; rewrite ?IH; reflexivity.
Qed.

End Tracker.

(** ** Clearing the service and listing datasets *)

Section Registry.

Context {R : Runtime}.

Lemma clear_eq (s : Sys) :
  clear s =
  (Ok tt,
   {| svc := with_progress (fun _ => ProgressInfo.fresh)
               (set_current_dataset None (set_config None (set_rag_model None (svc s))));
      world := world s;
      trace := trace s ++ [EvProgress (ProgressInfo.progress ProgressInfo.fresh)] |}).
Proof. reflexivity. Qed.

(** C9, as amended: [clear()] resets the active retrieval engine, the active
    configuration and the active dataset name to absent and installs a fresh
    [ProgressInfo]; the cached embedding-model and language-model handles and
    the registered observers are left as they were. *)
Theorem clear_resets_context (s : Sys) :
  let s' := snd (clear s) in
  fst (clear s) = Ok tt /\
  _rag_model (svc s') = None /\
  _config (svc s') = None /\
  _current_dataset (svc s') = None /\
  progress (svc s') = ProgressInfo.fresh /\
  _embedding_model (svc s') = _embedding_model (svc s) /\
  _llm_model (svc s') = _llm_model (svc s) /\
  _progress_callbacks (svc s') = _progress_callbacks (svc s) /\
  world s' = world s.
Proof. rewrite clear_eq. repeat split. Qed.

Lemma scan_datasets_pure (wd : pystr) (items : list pystr) (s : Sys) :
  snd (scan_datasets wd items s) = s.
Proof.
  induction items as [|item items IH]; [reflexivity|].
  cbn [scan_datasets]. msimpl.
  destruct (os_path_isdir (world s) (path_join wd item)); [|exact IH]. msimpl.
  destruct (os_listdir (world s) (path_join wd item)) as [files|e]; [|reflexivity].
  destruct (scan_datasets wd items s) as [[found|e] s1]; exact IH.
Qed.

Lemma scan_datasets_world (wd : pystr) (items : list pystr) (a b : Sys) :
  world a = world b ->
  fst (scan_datasets wd items a) = fst (scan_datasets wd items b).
Proof.
  destruct a as [va wa ta], b as [vb wb tb]. cbn [world]. intros <-.
  induction items as [|item items IH]; [reflexivity|].
  cbn [scan_datasets]. msimpl.
  destruct (os_path_isdir wa (path_join wd item)); [|exact IH]. msimpl.
  destruct (os_listdir wa (path_join wd item)) as [files|e]; [|reflexivity].
  destruct (scan_datasets wd items _) as [ra sa].
  destruct (scan_datasets wd items _) as [rb sb].
  cbn in IH. subst rb. destruct ra; reflexivity.
Qed.

(** C10: with no active configuration the listing is empty, whatever the
    file system holds, and leaves the state alone; with a configuration the
    listing is a function of its working root and the file system only. *)
Theorem get_datasets_needs_config (s : Sys) :
  (_config (svc s) = None -> get_datasets s = (Ok [], s)) /\
  (forall c s2 c2,
      _config (svc s) = Some c -> _config (svc s2) = Some c2 ->
      working_dir c2 = working_dir c -> world s2 = world s ->
      fst (get_datasets s2) = fst (get_datasets s)).
Proof.
  split.
  - intros H. unfold get_datasets. msimpl. rewrite H. reflexivity.
  - intros c s2 c2 H1 H2 Hw Hs.
    unfold get_datasets. msimpl. rewrite H1, H2, Hw, Hs.
    destruct (os_path_exists (world s) (working_dir c)); [|reflexivity].
    cbn [negb]. msimpl. rewrite Hs.
    destruct (os_listdir (world s) (working_dir c)) as [items|e]; [|reflexivity].
    apply scan_datasets_world, Hs.
Qed.

End Registry.

(** After [wiki5] was loaded, [clear()] leaves both cached model handles in
    place: not every field of the context is reset. *)
Lemma clear_keeps_models :
  let s' := snd (@clear Demo.runtime Demo.loaded) in
  _embedding_model (svc s') = Some (py "model/all-mpnet-base-v2") /\
  _llm_model (svc s') = Some (py "gpt-4o-mini") /\
  ~ (_embedding_model (svc s') = None /\ _llm_model (svc s') = None).
Proof.
  vm_compute. split; [reflexivity|]. split; [reflexivity|].
  intros [H _]. discriminate H.
Qed.

(** ** Relations kept by every run *)

Section Respects.

Context {R : Runtime}.
Variable P : Sys -> Sys -> Prop.
Hypothesis P_refl : forall s, P s s.
Hypothesis P_trans : forall a b c, P a b -> P b c -> P a c.
Hypothesis P_world : forall s w, P s {| svc := svc s; world := w; trace := trace s |}.
Hypothesis P_modify :
  forall f s, (forall v, _embedding_model (f v) = _embedding_model v) ->
              P s {| svc := f (svc s); world := world s; trace := trace s |}.

Lemma respects_ret {A} (a : A) : respects P (ret a).
Proof. intros s. apply P_refl. Qed.

Lemma respects_raise {A} (e : exn) : respects P (raise (A := A) e).
Proof. intros s. apply P_refl. Qed.

Lemma respects_lift {A} (r : result A) : respects P (lift r).
Proof. intros s. apply P_refl. Qed.

Lemma respects_gets {A} (f : LinearRAGService -> A) : respects P (gets f).
Proof. intros s. apply P_refl. Qed.

Lemma respects_observe {A} (f : World -> A) : respects P (observe f).
Proof. intros s. apply P_refl. Qed.

Lemma respects_bind {A B} (m : M A) (k : A -> M B) :
  respects P m -> (forall a, respects P (k a)) -> respects P (bind m k).
Proof.
  intros Hm Hk s. unfold bind. specialize (Hm s).
  destruct (m s) as [[a|e] s1]; cbn in *; [|exact Hm].
  eapply P_trans; [exact Hm | apply Hk].
Qed.

Lemma respects_try {A} (m : M A) (h : exn -> M A) :
  respects P m -> (forall e, respects P (h e)) -> respects P (try_except m h).
Proof.
  intros Hm Hh s. unfold try_except. specialize (Hm s).
  destruct (m s) as [[a|e] s1]; cbn in *; [exact Hm|].
  eapply P_trans; [exact Hm | apply Hh].
Qed.

Lemma respects_ext {A} (call : World -> result A * World) : respects P (ext call).
Proof.
  intros s. unfold ext. destruct (call (world s)) as [r w]. cbn. apply P_world.
Qed.

Lemma respects_time : respects P time_time.
Proof.
  intros s. unfold time_time. destruct (clock (world s)) as [t w]. cbn. apply P_world.
Qed.

Lemma respects_modify (f : LinearRAGService -> LinearRAGService) :
  (forall v, _embedding_model (f v) = _embedding_model v) -> respects P (modify f).
Proof. intros H s. cbn. apply P_modify, H. Qed.

Lemma respects_callbacks (cbs : list Callback) : respects P (run_callbacks cbs).
Proof. intros s. rewrite run_callbacks_eq. cbn. apply P_world. Qed.

Ltac respects_step :=
  first
    [ apply respects_ret | apply respects_raise | apply respects_lift
    | apply respects_gets | apply respects_observe | apply respects_ext
    | apply respects_time | apply respects_callbacks
    | (apply respects_modify; intros ?; reflexivity)
    | (apply respects_bind; [|intros ?])
    | (apply respects_try; [|intros ?])
    | match goal with
      | |- respects _ (match ?x with _ => _ end) => destruct x
      end ].

Lemma respects_register (cb : Callback) : respects P (register_progress_callback cb).
Proof. unfold register_progress_callback. repeat respects_step. Qed.

Lemma respects_query_try (engine : Engine) (t0 : Q) (q : pystr) (k : Z) (u : bool) :
  respects P (query_try engine t0 q k u).
Proof. unfold query_try. repeat respects_step. Qed.

Lemma respects_query (q : pystr) (k : Z) (u : bool) : respects P (query q k u).
Proof.
  unfold query. repeat respects_step.
Qed.

Lemma respects_query_each (qs : list pystr) (k : Z) (u : bool) :
  respects P (query_each qs k u).
Proof.
  induction qs as [|q qs IH]; cbn [query_each]; [apply respects_ret|].
  apply respects_bind; [apply respects_query|intros r].
  apply respects_bind; [exact IH|intros rs]. apply respects_ret.
Qed.

Lemma respects_batch_query (qs : list pystr) (k : Z) (u : bool) :
  respects P (batch_query qs k u).
Proof.
  unfold batch_query. apply respects_bind; [apply respects_time|intros t0].
  apply respects_bind; [apply respects_query_each|intros rs].
  repeat respects_step.
Qed.

Lemma respects_get_datasets : respects P get_datasets.
Proof.
  intros s. rewrite (surjective_pairing (get_datasets s)).
  unfold get_datasets. msimpl.
  destruct (_config (svc s)) as [c|]; [|apply P_refl]. msimpl.
  destruct (os_path_exists (world s) (working_dir c)); [|apply P_refl].
  cbn [negb]. msimpl.
  destruct (os_listdir (world s) (working_dir c)) as [items|e]; [|apply P_refl].
  rewrite scan_datasets_pure. apply P_refl.
Qed.

(** The operations that write the trace need more of [P]: it tolerates every
    event but the construction of an embedding model, and the embedding
    cache respects it. *)
Hypothesis P_emit :
  forall ev s, (forall p, ev <> EvSentenceTransformer p) ->
               P s {| svc := svc s; world := world s; trace := trace s ++ [ev] |}.
Hypothesis P_embedding : forall p, respects P (load_embedding_model p).

Lemma respects_emit (ev : Event) :
  (forall p, ev <> EvSentenceTransformer p) -> respects P (emit ev).
Proof. intros H s. cbn. apply P_emit, H. Qed.

Lemma respects_notify (p : Q) (step msg : pystr) :
  respects P (_notify_progress p step msg).
Proof.
  unfold _notify_progress.
  repeat first [respects_step | (apply respects_emit; intros ?; discriminate)].
Qed.

Ltac respects_write :=
  first [ respects_step | apply respects_notify | apply P_embedding
        | (apply respects_emit; intros ?; discriminate) ].

Lemma respects_load_llm (n : pystr) : respects P (load_llm_model n).
Proof. unfold load_llm_model. repeat respects_write. Qed.

Lemma respects_initialize_config (n e sp l wd : pystr) (ps : Params) :
  respects P (initialize_config n e sp l wd ps).
Proof.
  unfold initialize_config.
  apply respects_bind; [apply P_embedding|intros em].
  apply respects_bind; [apply respects_load_llm|intros lm].
  repeat respects_write.
Qed.

Lemma respects_process_documents (ps : list pystr) (n : pystr) (c : option Config)
      (cb : option Callback) :
  respects P (process_documents ps n c cb).
Proof.
  unfold process_documents.
  apply respects_bind; [destruct cb; [apply respects_register|apply respects_ret]|intros _].
  repeat respects_write.
Qed.

Lemma respects_clear : respects P clear.
Proof. unfold clear. repeat respects_write. Qed.

Lemma respects_load_existing (n e sp l wd : pystr) :
  respects P (load_existing_dataset n e sp l wd).
Proof.
  unfold load_existing_dataset. apply respects_try; [|intros ?; apply respects_ret].
  apply respects_bind; [apply respects_observe|intros present].
  destruct (negb present); [apply respects_ret|].
  apply respects_bind; [repeat respects_write|intros files].
  destruct (negb (has_parquet files)); [apply respects_ret|].
  apply respects_bind; [apply respects_initialize_config|intros _].
  repeat respects_write.
Qed.

Lemma respects_call (o : Op) (s : Sys) : P s (call o s).
Proof.
  destruct o; cbn [call].
  - apply respects_register.
  - apply P_embedding.
  - apply respects_load_llm.
  - apply respects_initialize_config.
  - apply respects_process_documents.
  - apply respects_query.
  - apply respects_batch_query.
  - apply respects_get_datasets.
  - apply respects_clear.
  - apply respects_load_existing.
Qed.

Lemma respects_calls (os : list Op) (s : Sys) : P s (calls os s).
Proof.
  revert s; induction os as [|o os IH]; intros s; [apply P_refl|].
  cbn. eapply P_trans; [apply respects_call | apply IH].
Qed.

End Respects.

(** ** The model cache *)

Section ModelCache.

Context {R : Runtime}.

Lemma stable_refl (s : Sys) : stable s s.
Proof. intros m H. split; [exact H | reflexivity]. Qed.

Lemma stable_trans (a b c : Sys) : stable a b -> stable b c -> stable a c.
Proof.
  intros H1 H2 m H. destruct (H1 m H) as [E1 C1]. destruct (H2 m E1) as [E2 C2].
  split; [exact E2 | congruence].
Qed.

Lemma stable_embedding (p : pystr) : respects stable (load_embedding_model p).
Proof.
  intros s m H. unfold load_embedding_model. msimpl. rewrite H. cbn.
  split; [exact H | reflexivity].
Qed.

Lemma stable_calls (os : list Op) (s : Sys) : stable s (calls os s).
Proof.
  apply respects_calls.
  - apply stable_refl.
  - apply stable_trans.
  - intros a w m H. split; [exact H | reflexivity].
  - intros f a E m H. cbn. rewrite E. split; [exact H | reflexivity].
  - intros ev a E m H. cbn. split; [exact H|].
    rewrite constructions_app. cbn.
    destruct ev as [p| |]; [destruct (E p eq_refl) | |]; cbn; lia.
  - apply stable_embedding.
Qed.

Lemma load_embedding_model_ok (p : pystr) (s s1 : Sys) (m : EmbeddingModel) :
  load_embedding_model p s = (Ok m, s1) ->
  _embedding_model (svc s1) = Some m /\
  constructions (trace s1) =
  (constructions (trace s)
   + match _embedding_model (svc s) with Some _ => 0 | None => 1 end)%nat.
Proof.
  unfold load_embedding_model. msimpl.
  destruct (_embedding_model (svc s)) as [m0|] eqn:E.
  - intros [= <- <-]. split; [exact E | lia].
  - msimpl. rewrite notify_eq. msimpl.
    destruct (SentenceTransformer p _) as [[m1|e] w]; [|discriminate].
    intros [= <- <-]. cbn. split; [reflexivity|].
    rewrite !constructions_app. cbn. lia.
Qed.

(** C3: once [load_embedding_model] has returned a model, every later call,
    with any path and after any other use of the service, returns that same
    instance and constructs nothing; the first call itself constructs at most
    once, and only when nothing was cached. *)
Theorem embedding_model_memoized (p1 : pystr) (s s1 : Sys) (m : EmbeddingModel) :
  load_embedding_model p1 s = (Ok m, s1) ->
  constructions (trace s1) =
  (constructions (trace s)
   + match _embedding_model (svc s) with Some _ => 0 | None => 1 end)%nat /\
  forall (os : list Op) (p2 : pystr),
    load_embedding_model p2 (calls os s1) = (Ok m, calls os s1) /\
    constructions (trace (calls os s1)) = constructions (trace s1).
Proof.
  intros H. destruct (load_embedding_model_ok _ _ H) as [E C]. split; [exact C|].
  intros os p2. destruct (stable_calls os s1 E) as [E' C'].
  split; [|exact C'].
  unfold load_embedding_model. msimpl. rewrite E'. reflexivity.
Qed.

End ModelCache.

Lemma embedding_model_memoized_demo :
  let s1 := snd (@load_embedding_model Demo.runtime (py "model/a") Demo.fresh) in
  let later := @calls Demo.runtime
                 [@Clear Demo.runtime; @Query Demo.runtime (py "q") 5%Z true] s1 in
  constructions (trace s1) = 1%nat /\
  @load_embedding_model Demo.runtime (py "model/b") later = (Ok (py "model/a"), later).
Proof.
  pose proof (@embedding_model_memoized Demo.runtime (py "model/a") Demo.fresh
                (snd (@load_embedding_model Demo.runtime (py "model/a") Demo.fresh))
                (py "model/a") eq_refl) as [C H].
  split; [exact C|].
  exact (proj1 (H [@Clear Demo.runtime; @Query Demo.runtime (py "q") 5%Z true]
                  (py "model/b"))).
Defined.

(** ** The query pipeline *)

Section QueryPipeline.

Context {R : Runtime}.

(** The state in which the [try] block of [query] starts. *)
Lemma query_eq (q : pystr) (k : Z) (u : bool) (s : Sys) (engine : Engine) :
  _rag_model (svc s) = Some engine ->
  query q k u s =
  let s0 := {| svc := svc s; world := snd (clock (world s)); trace := trace s |} in
  match query_try engine (fst (clock (world s))) q k u s0 with
  | (Ok d, s1) => (Ok d, s1)
  | (Raise e, s1) =>
    (Ok (query_failure q e),
     {| svc := with_progress (set_status (py "error")) (svc s1);
        world := world s1; trace := trace s1 |})
  end.
Proof.
  intros H. unfold query. msimpl. rewrite H. msimpl.
  destruct (clock (world s)) as [t0 w0]. cbn [fst snd].
  destruct (query_try engine t0 q k u _) as [[d|e] s1]; reflexivity.
Qed.

Lemma query_try_retrieval_raises (engine : Engine) (t0 : Q) (q : pystr) (k : Z)
      (u : bool) (s : Sys) (e : exn) (w1 : World) :
  rag_retrieve engine [(q, [])] (world s) = (Raise e, w1) ->
  fst (query_try engine t0 q k u s) = Raise e.
Proof.
  intros H. unfold query_try. msimpl. rewrite H. reflexivity.
Qed.

(** C1: [query] always returns a dictionary.  Without an active engine it is
    the index-not-built failure and nothing changes; when the [try] block
    raises (in particular when retrieval raises) the status becomes [error]
    and the failure result carries the question and the exception's message. *)
Theorem query_never_raises (q : pystr) (k : Z) (u : bool) (s : Sys) :
  exists d,
    fst (query q k u s) = Ok d /\
    (_rag_model (svc s) = None ->
     d = index_not_built /\ snd (query q k u s) = s /\
     dict_get "success" d = Some (VBool false)) /\
    (forall engine e s1,
        _rag_model (svc s) = Some engine ->
        query_try engine (fst (clock (world s))) q k u
                  {| svc := svc s; world := snd (clock (world s)); trace := trace s |}
        = (Raise e, s1) ->
        d = query_failure q e /\
        dict_get "success" d = Some (VBool false) /\
        dict_get "question" d = Some (VStr q) /\
        dict_get "error" d = Some (VStr (exn_str e)) /\
        status_of (snd (query q k u s)) = py "error") /\
    (forall engine e w1,
        _rag_model (svc s) = Some engine ->
        rag_retrieve engine [(q, [])] (snd (clock (world s))) = (Raise e, w1) ->
        d = query_failure q e /\ status_of (snd (query q k u s)) = py "error").
Proof.
  destruct (_rag_model (svc s)) as [engine|] eqn:E.
  - rewrite (query_eq q k u s E). cbn zeta.
    destruct (query_try engine _ q k u _) as [[d|e] s1] eqn:T.
    + exists d. split; [reflexivity|]. split; [discriminate|]. split.
      * intros ? ? ? [= <-]. rewrite T. discriminate.
      * intros ? e w1 [= <-] Hr.
        pose proof (query_try_retrieval_raises engine (fst (clock (world s))) q k u
                      {| svc := svc s; world := snd (clock (world s)); trace := trace s |}
                      Hr) as F.
        rewrite T in F. discriminate F.
    + exists (query_failure q e). split; [reflexivity|]. split; [discriminate|]. split.
      * intros ? ? ? [= <-]. rewrite T. intros [= <- <-]. repeat split.
      * intros ? e' w1 [= <-] Hr.
        pose proof (query_try_retrieval_raises engine (fst (clock (world s))) q k u
                      {| svc := svc s; world := snd (clock (world s)); trace := trace s |}
                      Hr) as F.
        rewrite T in F. cbn in F. injection F as <-. split; reflexivity.
  - exists index_not_built.
    assert (Q : query q k u s = (Ok index_not_built, s)).
    { unfold query. msimpl. rewrite E. reflexivity. }
    rewrite Q. split; [reflexivity|]. split; [intros _; repeat split|].
    split; intros; discriminate.
Qed.

(** The result of a query without generation, when retrieval succeeds and
    every paired passage encodes. *)
Lemma query_try_documents (engine : Engine) (t0 : Q) (q : pystr) (k : Z) (s : Sys)
      (r : Retrieval) (rest : list Retrieval) (w1 : World) :
  rag_retrieve engine [(q, [])] (world s) = (Ok (r :: rest), w1) ->
  forallb encodable
          (map fst (combine (sorted_passage r) (sorted_passage_scores r))) = true ->
  fst (query_try engine t0 q k false s) =
  Ok [("success", VBool true);
      ("question", VStr q);
      ("answer", VNone);
      ("thought", VNone);
      ("retrieved_documents",
       VList (map document_entry (combine (sorted_passage r) (sorted_passage_scores r))));
      ("retrieval_time_ms", VFloat (round2 (ms (fst (clock w1)) t0)));
      ("llm_time_ms", VNone);
      ("total_time_ms", VFloat (round2 (ms (fst (clock (snd (clock w1)))) t0)))] /\
  status_of (snd (query_try engine t0 q k false s)) = py "completed".
Proof.
  intros Hr He. unfold query_try. msimpl. rewrite Hr. msimpl.
  destruct (clock w1) as [t1 w2]. msimpl.
  rewrite (format_documents_ok _ He). msimpl.
  destruct (clock w2) as [t3 w3]. split; reflexivity.
Qed.

Lemma query_try_no_generation (engine : Engine) (t0 : Q) (q : pystr) (k : Z) (s : Sys)
      (d : dict) :
  fst (query_try engine t0 q k false s) = Ok d ->
  dict_get "answer" d = Some VNone /\ dict_get "thought" d = Some VNone /\
  dict_get "llm_time_ms" d = Some VNone.
Proof.
  unfold query_try. msimpl.
  destruct (rag_retrieve engine [(q, [])] (world s)) as [[[|r rest]|e] w1];
    msimpl; try discriminate.
  destruct (clock w1) as [t1 w2]. msimpl.
  destruct (format_documents _) as [docs|e]; msimpl; [|discriminate].
  destruct (clock w2) as [t3 w3]. cbn. intros [= <-]. repeat split.
Qed.

(** C6: a query with [use_llm = false] against an active engine returns no
    answer, no thought and no generation time; when the engine reports
    passages (that encode), the documents are its passages and scores, paired
    in the reported order. *)
Theorem query_without_llm (q : pystr) (k : Z) (s : Sys) (engine : Engine) :
  _rag_model (svc s) = Some engine ->
  exists d,
    fst (query q k false s) = Ok d /\
    absent "answer" d /\ absent "thought" d /\ absent "llm_time_ms" d /\
    forall r rest w1,
      rag_retrieve engine [(q, [])] (snd (clock (world s))) = (Ok (r :: rest), w1) ->
      forallb encodable
              (map fst (combine (sorted_passage r) (sorted_passage_scores r))) = true ->
      exists docs,
        dict_get "success" d = Some (VBool true) /\
        dict_get "retrieved_documents" d = Some (VList docs) /\
        docs = map document_entry (combine (sorted_passage r) (sorted_passage_scores r)) /\
        map document_content docs =
        map Some (firstn (length (sorted_passage_scores r)) (sorted_passage r)) /\
        map document_score docs =
        map Some (firstn (length (sorted_passage r)) (sorted_passage_scores r)).
Proof.
  intros E. rewrite (query_eq q k false s E). cbn zeta.
  destruct (query_try engine _ q k false _) as [[d|e] s1] eqn:T.
  - exists d. split; [reflexivity|].
    pose proof (query_try_no_generation engine _ q k _ (f_equal fst T)) as [A [B C]].
    split; [right; exact A|]. split; [right; exact B|]. split; [right; exact C|].
    intros r rest w1 Hr He.
    pose proof (query_try_documents engine (fst (clock (world s))) q k
                  {| svc := svc s; world := snd (clock (world s)); trace := trace s |}
                  Hr He) as [F _].
    rewrite T in F. cbn in F. injection F as ->.
    eexists. split; [reflexivity|]. split; [reflexivity|]. split; [reflexivity|].
    rewrite document_entry_content, document_entry_score.
    rewrite <- combine_fst, <- combine_snd, !map_map. split; reflexivity.
  - exists (query_failure q e). split; [reflexivity|].
    split; [left; reflexivity|]. split; [left; reflexivity|]. split; [left; reflexivity|].
    intros r rest w1 Hr He.
    pose proof (query_try_documents engine (fst (clock (world s))) q k
                  {| svc := svc s; world := snd (clock (world s)); trace := trace s |}
                  Hr He) as [F _].
    rewrite T in F. discriminate F.
Qed.

End QueryPipeline.

Lemma query_without_llm_demo :
  _rag_model (svc Demo.indexed) = Some (py "wiki5") /\
  exists d,
    fst (@query Demo.runtime (py "What is doc1 about?") 5%Z false Demo.indexed) = Ok d /\
    absent "answer" d /\ absent "thought" d /\ absent "llm_time_ms" d.
Proof.
  split; [reflexivity|].
  destruct (@query_without_llm Demo.runtime (py "What is doc1 about?") 5%Z
              Demo.indexed (py "wiki5") eq_refl) as [d [H1 [H2 [H3 [H4 _]]]]].
  exists d. repeat split; assumption.
Defined.

(** C8 at the scenario of the specification: after [wiki5] was indexed,
    [query(question, top_k=1, use_llm=False)] returns both passages the
    engine reported, not one. *)
Theorem query_top_k_not_applied :
  exists d docs,
    fst (@query Demo.runtime (py "What is doc1 about?") 1%Z false Demo.indexed) = Ok d /\
    dict_get "retrieved_documents" d = Some (VList docs) /\
    map document_content docs = [Some Demo.doc1; Some Demo.doc2] /\
    length docs = 2%nat.
Proof.
  eexists. eexists. split; [vm_compute; reflexivity|].
  split; [reflexivity|]. split; reflexivity.
Qed.

(** ** Batch queries *)

(** Case analysis on what the collaborators of [query_try] return. *)
Ltac query_cases :=
  repeat (msimpl; cbn [_llm_model with_progress];
          match goal with
          | |- context [rag_retrieve ?a ?b ?c] =>
            destruct (rag_retrieve a b c) as [[[|? ?]|?] ?]
          | |- context [clock ?w] => destruct (clock w)
          | |- context [format_documents ?x] => destruct (format_documents x)
          | |- context [llm_infer ?a ?b ?c] => destruct (llm_infer a b c) as [[?|?] ?]
          | |- context [parse_response ?x] => destruct (parse_response x)
          | |- context [match _llm_model ?v with _ => _ end] => destruct (_llm_model v)
          end).

Section Batch.

Context {R : Runtime}.

Lemma query_try_keeps_engine (engine : Engine) (t0 : Q) (q : pystr) (k : Z) (u : bool)
      (s : Sys) :
  _rag_model (svc (snd (query_try engine t0 q k u s))) = _rag_model (svc s).
Proof.
  unfold query_try. destruct u; query_cases; reflexivity.
Qed.

Lemma query_keeps_engine (q : pystr) (k : Z) (u : bool) (s : Sys) :
  _rag_model (svc (snd (query q k u s))) = _rag_model (svc s).
Proof.
  destruct (_rag_model (svc s)) as [engine|] eqn:E.
  - rewrite (query_eq q k u s E). cbn zeta.
    pose proof (query_try_keeps_engine engine (fst (clock (world s))) q k u
                  {| svc := svc s; world := snd (clock (world s)); trace := trace s |}) as K.
    destruct (query_try engine _ q k u _) as [[d|e] s1]; cbn in *; congruence.
  - unfold query. msimpl. rewrite E. exact E.
Qed.

Lemma query_try_question (engine : Engine) (t0 : Q) (q : pystr) (k : Z) (u : bool)
      (s : Sys) (d : dict) :
  fst (query_try engine t0 q k u s) = Ok d ->
  dict_get "success" d = Some (VBool true) /\ dict_get "question" d = Some (VStr q).
Proof.
  unfold query_try. destruct u; query_cases; cbn; intros [= <-]; split; reflexivity.
Qed.

Lemma query_question (q : pystr) (k : Z) (u : bool) (s : Sys) (engine : Engine) (d : dict) :
  _rag_model (svc s) = Some engine ->
  fst (query q k u s) = Ok d -> dict_get "question" d = Some (VStr q).
Proof.
  intros E. rewrite (query_eq q k u s E). cbn zeta.
  destruct (query_try engine _ q k u _) as [[d'|e] s1] eqn:T; cbn; intros [= <-].
  - apply (query_try_question engine _ q k u _ (f_equal fst T)).
  - reflexivity.
Qed.

(** The loop of [batch_query]: one result per question, in order. *)
Lemma query_total (q : pystr) (k : Z) (u : bool) (s : Sys) :
  exists d,
    fst (query q k u s) = Ok d /\
    (_rag_model (svc s) = None ->
     d = index_not_built /\ snd (query q k u s) = s /\
     dict_get "success" d = Some (VBool false)).
Proof.
  destruct (_rag_model (svc s)) as [engine|] eqn:E.
  - rewrite (query_eq q k u s E). cbn zeta.
    destruct (query_try engine _ q k u _) as [[d|e] s1];
      eexists; (split; [reflexivity|discriminate]).
  - unfold query. msimpl. rewrite E. eexists. split; [reflexivity|].
    intros _. repeat split.
Qed.

Lemma query_each_results (qs : list pystr) (k : Z) (u : bool) (s : Sys) :
  exists rs,
    fst (query_each qs k u s) = Ok rs /\
    length rs = length qs /\
    (forall engine, _rag_model (svc s) = Some engine ->
                    Forall2 (fun q r => dict_get "question" r = Some (VStr q)) qs rs) /\
    (_rag_model (svc s) = None -> rs = map (fun _ => index_not_built) qs).
Proof.
  revert s; induction qs as [|q qs IH]; intros s.
  - exists []. repeat split; constructor.
  - cbn [query_each]. msimpl.
    destruct (query_total q k u s) as [d [Hd Hn]].
    pose proof (query_keeps_engine q k u s) as K.
    pose proof (fun engine => @query_question q k u s engine d) as Hq.
    destruct (query q k u s) as [r s1]. cbn in Hd, K, Hn. subst r.
    destruct (IH s1) as [rs [H1 [H2 [H3 H4]]]].
    destruct (query_each qs k u s1) as [r2 s2]. cbn in H1. subst r2.
    exists (d :: rs). split; [reflexivity|]. split; [cbn; now rewrite H2|]. split.
    + intros engine E. constructor; [apply (Hq engine E eq_refl)|].
      apply (H3 engine). now rewrite K.
    + intros E. cbn. destruct (Hn E) as [-> _]. f_equal. apply H4. now rewrite K.
Qed.

(** [batch_query] never raises: it returns one result per question, in
    order; with an active engine the result for a question carries that
    question; with none, every result is the index-not-built failure, which
    has no question field. *)
Theorem batch_query_results (qs : list pystr) (k : Z) (u : bool) (s : Sys) :
  exists d rs,
    fst (batch_query qs k u s) = Ok d /\
    dict_get "success" d = Some (VBool true) /\
    dict_get "results" d = Some (VList (map VDict rs)) /\
    dict_get "questions_count" d = Some (VInt (Z.of_nat (length qs))) /\
    length rs = length qs /\
    (forall engine, _rag_model (svc s) = Some engine ->
                    Forall2 (fun q r => dict_get "question" r = Some (VStr q)) qs rs) /\
    (_rag_model (svc s) = None ->
     Forall (fun r => r = index_not_built /\ dict_get "question" r = None) rs).
Proof.
  unfold batch_query. msimpl. destruct (clock (world s)) as [t0 w0]. msimpl.
  destruct (query_each_results qs k u {| svc := svc s; world := w0; trace := trace s |})
    as [rs [H1 [H2 [H3 H4]]]].
  destruct (query_each qs k u _) as [r s1]. cbn in H1. subst r. msimpl.
  destruct (clock (world s1)) as [t1 w1]. cbn [fst].
  eexists. exists rs. split; [reflexivity|]. repeat split; try assumption.
  intros E. rewrite (H4 E). apply Forall_forall. intros r Hr.
  apply in_map_iff in Hr as [q [<- _]]. split; reflexivity.
Qed.

End Batch.

(** C4 at a fresh service: the results of a batch have no question field. *)
Theorem batch_query_without_engine :
  exists d,
    fst (@batch_query Demo.runtime [py "q1"; py "q2"] 5%Z true Demo.fresh) = Ok d /\
    dict_get "results" d = Some (VList [VDict index_not_built; VDict index_not_built]) /\
    dict_get "question" index_not_built = None.
Proof.
  eexists. split; [vm_compute; reflexivity|]. split; reflexivity.
Qed.

(** ** Answer generation *)

Section Generation.

Context {R : Runtime}.

Lemma query_try_generation (engine : Engine) (t0 : Q) (q : pystr) (k : Z) (s : Sys)
      (r : Retrieval) (rest : list Retrieval) (w1 w4 : World) (l : LLM)
      (response : pystr) :
  rag_retrieve engine [(q, [])] (world s) = (Ok (r :: rest), w1) ->
  forallb encodable
          (map fst (combine (sorted_passage r) (sorted_passage_scores r))) = true ->
  _llm_model (svc s) = Some l ->
  llm_infer l [(py "system", system_prompt);
               (py "user", prompt_user (sorted_passage r) q k)]
            (snd (clock (snd (clock w1)))) = (Ok response, w4) ->
  exists d,
    fst (query_try engine t0 q k true s) = Ok d /\
    dict_get "success" d = Some (VBool true) /\
    dict_get "thought" d = Some (VStr (fst (parse_response response))) /\
    dict_get "answer" d = Some (VStr (snd (parse_response response))).
Proof.
  intros Hr He Hl Hi. unfold query_try. msimpl. rewrite Hr. msimpl.
  destruct (clock w1) as [t1 w2]. cbn [snd] in Hi. msimpl.
  rewrite (format_documents_ok _ He). msimpl.
  destruct (clock w2) as [t2 w3]. cbn [snd] in Hi. msimpl.
  cbn [_llm_model with_progress].
  rewrite Hl. msimpl. rewrite Hi. msimpl.
  destruct (parse_response response) as [thought answer]. msimpl.
  destruct (clock w4) as [t4 w5]. msimpl.
  destruct (clock w5) as [t5 w6]. msimpl.
  eexists. split; [reflexivity|]. repeat split.
Qed.

(** C2: when the language model replies [response], the query succeeds (the
    parse does not raise) and splits the reply at the first ["Answer:"]:
    [thought] is the text before it and [answer] the text after it, both
    stripped; without the marker, [answer] is the stripped reply and
    [thought] is empty. *)
Theorem query_answer_parse (q : pystr) (k : Z) (s : Sys) (engine : Engine) (l : LLM)
        (r : Retrieval) (rest : list Retrieval) (w1 w4 : World) (response : pystr) :
  _rag_model (svc s) = Some engine ->
  _llm_model (svc s) = Some l ->
  rag_retrieve engine [(q, [])] (snd (clock (world s))) = (Ok (r :: rest), w1) ->
  forallb encodable
          (map fst (combine (sorted_passage r) (sorted_passage_scores r))) = true ->
  llm_infer l [(py "system", system_prompt);
               (py "user", prompt_user (sorted_passage r) q k)]
            (snd (clock (snd (clock w1)))) = (Ok response, w4) ->
  exists d,
    fst (query q k true s) = Ok d /\
    dict_get "success" d = Some (VBool true) /\
    (forall pre post,
        first_occurrence (py "Answer:") response pre post ->
        dict_get "thought" d = Some (VStr (strip pre)) /\
        dict_get "answer" d = Some (VStr (strip post))) /\
    (~ contains (py "Answer:") response ->
     dict_get "thought" d = Some (VStr []) /\
     dict_get "answer" d = Some (VStr (strip response))).
Proof.
  intros E Hl Hr He Hi. rewrite (query_eq q k true s E). cbn zeta.
  destruct (query_try_generation engine (fst (clock (world s))) q k
              {| svc := svc s; world := snd (clock (world s)); trace := trace s |}
              Hr He Hl Hi) as [d [H1 [H2 [H3 H4]]]].
  destruct (query_try engine _ q k true _) as [[d'|e] s1]; [|discriminate H1].
  cbn in H1. injection H1 as ->. exists d. split; [reflexivity|]. split; [exact H2|].
  split.
  - intros pre post F. rewrite (parse_response_marker F) in H3, H4. now split.
  - intros F. rewrite (parse_response_no_marker F) in H3, H4. now split.
Qed.

End Generation.

Lemma query_answer_parse_demo :
  exists d,
    fst (@query Demo.runtime (py "What is doc1 about?") 1%Z true Demo.loaded) = Ok d /\
    dict_get "thought" d = Some (VStr (py "doc1 is the first document.")) /\
    dict_get "answer" d = Some (VStr (py "doc1")).
Proof.
  destruct (@query_answer_parse Demo.runtime (py "What is doc1 about?") 1%Z Demo.loaded
              (py "wiki5") (py "gpt-4o-mini") Demo.ranked [] _ _ Demo.reply
              eq_refl eq_refl eq_refl eq_refl eq_refl) as [d [H1 [_ [H2 _]]]].
  exists d. split; [exact H1|].
  exact (H2 _ _ (find_some (py "Answer:") Demo.reply eq_refl)).
Defined.

(** ** Progress values of the indexing orchestrator *)

Section Orchestrator.

Context {R : Runtime}.

Ltac notify_step :=
  rewrite notify_eq;
  match goal with
  | |- context [notified ?p ?a ?b ?st] =>
    let s1 := fresh "s" in
    let T := fresh "T" in
    let S := fresh "S" in
    generalize (notified_status p a b st);
    generalize (notified_trace p a b st);
    generalize (notified p a b st);
    intros s1 T S; cbn [trace] in T
  end.

Lemma status_of_set_status (x : pystr) (v : LinearRAGService) (w : World)
      (t : list Event) :
  status_of {| svc := with_progress (set_status x) v; world := w; trace := t |} = x.
Proof. reflexivity. Qed.

Lemma status_of_set_error (x : pystr) (e : option pystr) (v : LinearRAGService)
      (w : World) (t : list Event) :
  status_of {| svc := with_progress (set_error e) (with_progress (set_status x) v);
               world := w; trace := t |} = x.
Proof. reflexivity. Qed.

Lemma process_documents_cases (ps : list pystr) (n : pystr) (c : option Config)
      (cb : option Callback) (s : Sys) (P : Sys -> Prop) :
  (forall s', status_of s' = py "completed" ->
              trace s' = trace s ++ map EvProgress [0.05; 0.15; 0.25; 1.0] -> P s') ->
  (forall s' l, status_of s' = py "error" ->
                In l [[0.05; 0.15]; [0.05; 0.15; 0.25]] ->
                trace s' = trace s ++ map EvProgress (l ++ [0]) -> P s') ->
  P (snd (process_documents ps n c cb s)).
Proof.
  intros Hok Herr. unfold process_documents.
  destruct cb as [cb|]; msimpl; destruct (clock (world s)) as [t0 w0]; msimpl;
    notify_step; msimpl; destruct c as [c|]; msimpl; notify_step; msimpl.
  all: match goal with
       | |- context [LinearRAG ?x ?w] => destruct (LinearRAG x w) as [[engine|e] w1]
       end; msimpl; notify_step; msimpl.
  all: try (match goal with
            | |- context [rag_index ?a ?x ?w] => destruct (rag_index a x w) as [[u|e] w2]
            end; msimpl; notify_step; msimpl).
  all: lazymatch goal with
       | |- context [set_status (py "completed")] =>
         apply Hok; [apply status_of_set_status|]
       | _ =>
         lazymatch goal with
         | H : trace _ = _ ++ [EvProgress 0.25] |- _ =>
           apply (Herr _ [0.05; 0.15; 0.25]); [| right; now left |]
         | _ => apply (Herr _ [0.05; 0.15]); [| now left |]
         end;
         [ match goal with
           | H : status_of ?x = _ |- status_of ?x = _ =>
             rewrite H; apply status_of_set_error
           end |]
       end.
  all: cbn [trace];
    repeat match goal with
           | H : trace ?x = _ |- context [trace ?x] => rewrite H; clear H
           end.
  all: rewrite <- ?app_assoc; reflexivity.
Qed.

Lemma progress_values_map (l : list Q) : progress_values (map EvProgress l) = l.
Proof. induction l as [|q l IH]; [reflexivity|]. simpl. now rewrite IH. Qed.

Lemma events_of_app (o : Op) (s : Sys) (l : list Event) :
  trace (call o s) = trace s ++ l -> events_of o s = l.
Proof.
  intros H. unfold events_of. rewrite H.
  now rewrite skipn_app, skipn_all, Nat.sub_diag.
Qed.

(** C7, as the code has it: the progress values one indexing run reports
    stay in [0, 1]; a run that ends [completed] reports 0.05, 0.15, 0.25,
    1.0, which never decrease; a run that ends in [error] reports a
    non-decreasing prefix of these followed by a reset to 0 issued by the
    failure handler of the same run. *)
Theorem process_documents_progress (ps : list pystr) (n : pystr) (c : option Config)
        (cb : option Callback) (s : Sys) :
  let o := ProcessDocuments ps n c cb in
  let vs := progress_values (events_of o s) in
  in_unit_interval vs = true /\
  ((status_of (call o s) = py "completed" /\
    vs = [0.05; 0.15; 0.25; 1.0] /\ nondecreasing vs = true) \/
   (status_of (call o s) = py "error" /\
    exists l, vs = l ++ [0] /\ l <> [] /\ nondecreasing l = true /\
              nondecreasing vs = false)).
Proof.
  cbn zeta.
  pose proof (process_documents_cases ps n c cb s
    (fun s' => (status_of s' = py "completed" /\
                trace s' = trace s ++ map EvProgress [0.05; 0.15; 0.25; 1.0]) \/
               (status_of s' = py "error" /\
                exists l, In l [[0.05; 0.15]; [0.05; 0.15; 0.25]] /\
                          trace s' = trace s ++ map EvProgress (l ++ [0])))) as H.
  cbv beta in H.
  destruct H as [[Hs Ht]|[Hs [l [Hl Ht]]]].
  - intros s' H1 H2. left. now split.
  - intros s' l H1 H2 H3. right. split; [exact H1|]. now exists l.
  - change (snd (process_documents ps n c cb s))
      with (call (ProcessDocuments ps n c cb) s) in Hs, Ht.
    rewrite (events_of_app _ _ _ Ht), progress_values_map.
    split; [reflexivity|]. left. split; [exact Hs|]. split; reflexivity.
  - change (snd (process_documents ps n c cb s))
      with (call (ProcessDocuments ps n c cb) s) in Hs, Ht.
    rewrite (events_of_app _ _ _ Ht), progress_values_map.
    destruct Hl as [<-|[<-|[]]].
    + split; [reflexivity|]. right. split; [exact Hs|].
      exists [0.05; 0.15]. repeat split; try reflexivity. discriminate.
    + split; [reflexivity|]. right. split; [exact Hs|].
      exists [0.05; 0.15; 0.25]. repeat split; try reflexivity. discriminate.
Qed.

End Orchestrator.

(** C7 as stated fails: a run that cannot build the engine resets the
    progress from 0.15 to 0 before it ends. *)
Theorem process_documents_progress_reset :
  progress_values
    (@events_of Demo.runtime
       (@ProcessDocuments Demo.runtime [Demo.doc1; Demo.doc2] (py "wiki5") None None)
       Demo.fresh) = [0.05; 0.15; 0] /\
  nondecreasing [0.05; 0.15; 0] = false /\
  @status_of Demo.runtime
    (@call Demo.runtime
       (@ProcessDocuments Demo.runtime [Demo.doc1; Demo.doc2] (py "wiki5") None None)
       Demo.fresh) = py "error".
Proof. repeat split; vm_compute; reflexivity. Qed.

(** ** Listing after an indexing run *)

Section Listing.

Context {R : Runtime}.

Lemma notified_config (p : Q) (step msg : pystr) (s : Sys) :
  _config (svc (notified p step msg s)) = _config (svc s).
Proof. reflexivity. Qed.

Ltac notify_config_step :=
  rewrite notify_eq;
  match goal with
  | |- context [notified ?p ?a ?b ?st] =>
    let s1 := fresh "s" in
    let C := fresh "C" in
    generalize (notified_config p a b st);
    generalize (notified p a b st);
    intros s1 C; cbn [svc] in C
  end.

Lemma process_documents_keeps_config (ps : list pystr) (n : pystr) (c : option Config)
      (cb : option Callback) (s : Sys) :
  _config (svc (snd (process_documents ps n c cb s))) = _config (svc s).
Proof.
  unfold process_documents.
  destruct cb as [cb|]; msimpl; destruct (clock (world s)) as [t0 w0]; msimpl;
    notify_config_step; msimpl; destruct c as [c|]; msimpl; notify_config_step; msimpl.
  all: match goal with
       | |- context [LinearRAG ?x ?w] => destruct (LinearRAG x w) as [[engine|e] w1]
       end; msimpl; notify_config_step; msimpl.
  all: try (match goal with
            | |- context [rag_index ?a ?x ?w] => destruct (rag_index a x w) as [[u|e] w2]
            end; msimpl; notify_config_step; msimpl).
  all: repeat match goal with
              | H : _config (svc ?x) = _ |- context [svc ?x] =>
                transitivity (_config (svc x)); [reflexivity|]; rewrite H; clear H
              end.
  all: reflexivity.
Qed.

Lemma scan_datasets_lists (wd : pystr) (items : list pystr) (s : Sys) :
  (forall i, In i items -> os_path_isdir (world s) (path_join wd i) = true ->
             exists files, os_listdir (world s) (path_join wd i) = Ok files) ->
  exists found,
    scan_datasets wd items s = (Ok found, s) /\
    forall n, In n found <->
              In n items /\
              os_path_isdir (world s) (path_join wd n) = true /\
              exists files, os_listdir (world s) (path_join wd n) = Ok files /\
                            has_parquet files = true.
Proof.
  induction items as [|item items IH]; intros H.
  - exists []. split; [reflexivity|]. intros n. split; [intros []|intros [[] _]].
  - destruct IH as [found [E F]]; [intros i Hi; apply H; now right|].
    cbn [scan_datasets]. msimpl.
    destruct (os_path_isdir (world s) (path_join wd item)) eqn:D.
    + destruct (H item (or_introl eq_refl) D) as [files L]. msimpl. rewrite L, E.
      destruct (has_parquet files) eqn:P.
      * exists (item :: found). split; [reflexivity|]. intros n. split.
        -- intros [<-|Hn].
           ++ split; [now left|]. split; [exact D|]. now exists files.
           ++ apply F in Hn as [Hn Hr]. split; [now right|exact Hr].
        -- intros [[<-|Hn] Hr]; [now left|]. right. apply F. now split.
      * exists found. split; [reflexivity|]. intros n. split.
        -- intros Hn. apply F in Hn as [Hn Hr]. split; [now right|exact Hr].
        -- intros [[<-|Hn] Hr]; [|apply F; now split].
           destruct Hr as [_ [files' [L' P']]]. congruence.
    + exists found. split; [exact E|]. intros n. split.
      * intros Hn. apply F in Hn as [Hn Hr]. split; [now right|exact Hr].
      * intros [[<-|Hn] Hr]; [|apply F; now split].
        destruct Hr as [D' _]. congruence.
Qed.

Lemma get_datasets_scan (s : Sys) (c : Config) (items : list pystr) :
  _config (svc s) = Some c ->
  os_path_exists (world s) (working_dir c) = true ->
  os_listdir (world s) (working_dir c) = Ok items ->
  get_datasets s = scan_datasets (working_dir c) items s.
Proof.
  intros Hc He Hl. unfold get_datasets. msimpl. rewrite Hc, He. cbn [negb]. msimpl.
  rewrite Hl. destruct s as [v w t]. reflexivity.
Qed.

End Listing.

(** C5 as stated fails: the run for [wiki5] under an explicit configuration
    completes, the working root holds [wiki5] with a parquet artifact, and
    the listing is empty, because the run leaves no configuration active. *)
Theorem completed_dataset_not_listed :
  @status_of Demo.runtime Demo.indexed = py "completed" /\
  @get_datasets Demo.runtime Demo.indexed = (Ok [], Demo.indexed) /\
  @os_listdir Demo.runtime (@world Demo.runtime Demo.indexed)
              (working_dir Demo.config) = Ok [py "wiki5"] /\
  @os_listdir Demo.runtime (@world Demo.runtime Demo.indexed)
              (path_join (working_dir Demo.config) (py "wiki5")) =
  Ok [py "passage_embedding.parquet"] /\
  has_parquet [py "passage_embedding.parquet"] = true.
Proof. repeat split; vm_compute; reflexivity. Qed.

(** ** Upload parsing *)

Lemma flat_map_strings (keys : list string) (l : list pystr) :
  flat_map (item_passage keys) (map VStr l) = map VStr l.
Proof. induction l as [|x l IH]; [reflexivity|]. cbn. now rewrite IH. Qed.

(** An upload that is a list of strings is returned as it is, and so is a
    list of strings held by a dictionary under the field the parser selects:
    [chunks] when present, else [documents] when present, else [passages]. *)
Theorem passages_of_strings (json_loads : list N -> result pyval) (content : list N)
        (data : pyval) (l : list pystr) :
  json_loads content = Ok data ->
  (data = VList (map VStr l) \/
   exists d,
     data = VDict d /\
     (dict_get "chunks" d = Some (VList (map VStr l)) \/
      (dict_get "chunks" d = None /\
       dict_get "documents" d = Some (VList (map VStr l))) \/
      (dict_get "chunks" d = None /\ dict_get "documents" d = None /\
       dict_get "passages" d = Some (VList (map VStr l))))) ->
  parse_chunks_from_json json_loads content = Ok (map VStr l).
Proof.
  intros L H. unfold parse_chunks_from_json. rewrite L.
  destruct H as [->|[d [-> [A|[[A B]|[A [B C]]]]]]]; cbn.
  - now rewrite flat_map_strings.
  - rewrite A. unfold field_passages. cbn. now rewrite flat_map_strings.
  - rewrite A, B. unfold field_passages. cbn. now rewrite flat_map_strings.
  - rewrite A, B, C. unfold field_passages. cbn. now rewrite flat_map_strings.
Qed.

Lemma passages_of_strings_demo :
  parse_chunks_from_json
    (fun _ => Ok (VDict [("passages", VList [VStr (py "x")]);
                         ("documents", VList [VStr (py "a"); VStr (py "b")])])) [] =
  Ok [VStr (py "a"); VStr (py "b")].
Proof.
  apply (passages_of_strings
           (fun _ => Ok (VDict [("passages", VList [VStr (py "x")]);
                                ("documents", VList [VStr (py "a"); VStr (py "b")])]))
           [] [py "a"; py "b"] eq_refl).
  right. eexists. split; [reflexivity|]. right. left. split; reflexivity.
Defined.

(** Whatever goes wrong while an upload is parsed reaches the caller as a
    [ValueError] whose message is the fixed prefix followed by the message
    of the original exception. *)
Theorem parse_chunks_error_wrapped (json_loads : list N -> result pyval)
        (content : list N) (e : exn) :
  parse_chunks_from_json json_loads content = Raise e ->
  exn_class e = "ValueError" /\
  exists cause,
    exn_str e = py "解析JSON文件失败: " ++ exn_str cause /\
    (json_loads content = Raise cause \/
     exists data, json_loads content = Ok data /\ passages_of_data data = Raise cause).
Proof.
  unfold parse_chunks_from_json.
  destruct (json_loads content) as [data|cause] eqn:L.
  - destruct (passages_of_data data) as [ps|cause] eqn:P; [discriminate|].
    intros [= <-]. split; [reflexivity|]. exists cause. split; [reflexivity|].
    right. now exists data.
  - intros [= <-]. split; [reflexivity|]. exists cause. split; [reflexivity|]. now left.
Qed.

Lemma parse_chunks_error_wrapped_demo :
  exn_class
    (Exception "ValueError" (py "解析JSON文件失败: 'int' object is not iterable")) =
  "ValueError".
Proof.
  assert (H : parse_chunks_from_json (fun _ => Ok (VDict [("chunks", VInt 3)])) [] =
              Raise (Exception "ValueError"
                       (py "解析JSON文件失败: 'int' object is not iterable")))
    by (vm_compute; reflexivity).
  exact (proj1 (parse_chunks_error_wrapped _ _ H)).
Defined.

(** The parsed data alone makes the parse fail only in one way: the upload
    is a dictionary whose selected field ([chunks], else [documents], else
    [passages]) is not iterable, which gives a [TypeError]. *)
Theorem passages_of_data_raises (data : pyval) (e : exn) :
  passages_of_data data = Raise e ->
  exn_class e = "TypeError" /\
  exists d k v,
    data = VDict d /\ In k ["chunks"; "documents"; "passages"] /\
    dict_get k d = Some v /\ iterate v = Raise e.
Proof.
  destruct data as [| | | | |l|d]; try discriminate. cbn.
  assert (F : forall keys v, field_passages keys v = Raise e ->
                             exn_class e = "TypeError" /\ iterate v = Raise e).
  { intros keys v. unfold field_passages.
    destruct v; cbn; try discriminate; intros [= <-]; split; reflexivity. }
  destruct (dict_get "chunks" d) as [v|] eqn:A.
  { intros H. destruct (F _ _ H) as [C I]. split; [exact C|].
    exists d, "chunks", v. repeat split; cbn; auto. }
  destruct (dict_get "documents" d) as [v|] eqn:B.
  { intros H. destruct (F _ _ H) as [C I]. split; [exact C|].
    exists d, "documents", v. repeat split; cbn; auto. }
  destruct (dict_get "passages" d) as [v|] eqn:C; [|discriminate].
  intros H. destruct (F _ _ H) as [C' I]. split; [exact C'|].
  exists d, "passages", v. repeat split; cbn; auto.
Qed.

Lemma passages_of_data_raises_demo :
  exn_class (Exception "TypeError" (py "'int' object is not iterable")) = "TypeError".
Proof.
  assert (H : passages_of_data (VDict [("documents", VInt 3)]) =
              Raise (Exception "TypeError" (py "'int' object is not iterable")))
    by (vm_compute; reflexivity).
  exact (proj1 (passages_of_data_raises _ H)).
Defined.

(** ** Further properties of the service *)

Section ServiceFacts.

Context {R : Runtime}.

(** [_notify_progress] isolates the caller from its observers (observers
    that act on the outside world, as [Callback] has them): it returns
    normally whether or not an observer raises, with the value, the step
    and the message stored, and every registered observer has run once, in
    registration order, on the world the one before it left and with the
    updated progress object; an observer that raises stops neither the
    observers after it nor the caller. *)
Theorem notify_progress_isolated (p : Q) (step msg : pystr) (s : Sys) :
  exists s',
    _notify_progress p step msg s = (Ok tt, s') /\
    ProgressInfo.progress (progress (svc s')) = p /\
    ProgressInfo.current_step (progress (svc s')) = step /\
    ProgressInfo.message (progress (svc s')) = msg /\
    world s' =
    fold_left (fun w cb => snd (cb (progress (svc s')) w))
              (_progress_callbacks (svc s)) (world s).
Proof.
  exists (notified p step msg s). split; [apply notify_eq|]. repeat split.
Qed.

(** [load_llm_model] is first-writer-wins: a cached model is returned as it
    is, with no construction and no progress report; otherwise the model is
    constructed from the given name and cached, and a failing construction
    propagates and leaves the cache empty. *)
Theorem load_llm_model_outcomes (name : pystr) (s : Sys) :
  (forall m, _llm_model (svc s) = Some m -> load_llm_model name s = (Ok m, s)) /\
  (_llm_model (svc s) = None ->
   let s0 := notified 0.2 (py "loading_llm") (py "正在加载LLM模型...") s in
   match LLM_Model name (world s0) with
   | (Ok m, w) =>
     fst (load_llm_model name s) = Ok m /\
     _llm_model (svc (snd (load_llm_model name s))) = Some m /\
     trace (snd (load_llm_model name s)) = trace s ++ [EvProgress 0.2; EvLLM_Model name]
   | (Raise e, w) =>
     fst (load_llm_model name s) = Raise e /\
     _llm_model (svc (snd (load_llm_model name s))) = None
   end).
Proof.
  split.
  - intros m H. unfold load_llm_model. msimpl. now rewrite H.
  - intros H. cbn zeta. unfold load_llm_model. msimpl. rewrite H. msimpl.
    rewrite notify_eq. msimpl.
    destruct (LLM_Model name _) as [[m|e] w].
    + cbn. repeat split. now rewrite <- app_assoc.
    + cbn. split; [reflexivity|exact H].
Qed.

(** Without generation, [top_k] plays no part in a query: the result and the
    state it leaves are the same for every [top_k]. *)
Theorem query_top_k_unused (q : pystr) (k k' : Z) (s : Sys) :
  query q k false s = query q k' false s.
Proof. reflexivity. Qed.

(** After [clear()] every query is answered with the index-not-built
    failure and the listing is empty, whatever was loaded before. *)
Theorem clear_then_query (q : pystr) (k : Z) (u : bool) (s : Sys) :
  let s' := snd (clear s) in
  query q k u s' = (Ok index_not_built, s') /\
  get_datasets s' = (Ok [], s').
Proof. split; reflexivity. Qed.

End ServiceFacts.

(** ** Outcomes of the indexing orchestrator *)

Section Outcomes.

Context {R : Runtime}.

(** Replace a progress report by its closed form, forgetting what the
    observers did to the world. *)
Ltac notify_open :=
  rewrite notify_eq; unfold notified; cbn [svc world trace];
  match goal with
  | |- context [observers_world ?a ?b ?c] =>
    let w := fresh "w" in generalize (observers_world a b c); intro w
  end.



End Outcomes.

(** ** Loading a dataset from the working root *)

Section Loading.

Context {R : Runtime}.

Ltac notify_open :=
  rewrite notify_eq; unfold notified; cbn [svc world trace];
  match goal with
  | |- context [observers_world ?a ?b ?c] =>
    let w := fresh "w" in generalize (observers_world a b c); intro w
  end.

Ltac load_cases :=
  repeat (msimpl;
          cbn [_embedding_model _llm_model _config set_embedding_model set_llm_model
               set_config with_progress negb];
          first
            [ notify_open
            | match goal with
              | |- context [os_path_exists ?w ?p] => destruct (os_path_exists w p) eqn:?
              | |- context [os_listdir ?w ?p] => destruct (os_listdir w p) as [?|?] eqn:?
              | |- context [has_parquet ?f] => destruct (has_parquet f) eqn:?
              | |- context [_embedding_model (svc ?s)] => destruct (_embedding_model (svc s))
              | |- context [_llm_model (svc ?s)] => destruct (_llm_model (svc s))
              | |- context [SentenceTransformer ?p ?w] =>
                destruct (SentenceTransformer p w) as [[?|?] ?]
              | |- context [LLM_Model ?p ?w] => destruct (LLM_Model p w) as [[?|?] ?]
              | |- context [LinearRAG ?p ?w] => destruct (LinearRAG p w) as [[?|?] ?]
              end ]).

(** [load_existing_dataset] never raises: every failure, of the file system,
    of a model construction or of the engine, is answered with [False].
    A missing dataset directory, or one without a [.parquet] file, is
    answered with [False] before anything is touched.  The answer [True]
    comes with status [ready], the dataset name recorded, an engine active
    and a configuration active for that name and working root. *)
Theorem load_existing_dataset_outcome (name emp spacy llm wd : pystr) (s : Sys) :
  exists b s',
    load_existing_dataset name emp spacy llm wd s = (Ok b, s') /\
    (os_path_exists (world s) (path_join wd name) = false -> b = false /\ s' = s) /\
    (forall files,
        os_listdir (world s) (path_join wd name) = Ok files ->
        has_parquet files = false -> b = false /\ s' = s) /\
    (b = true ->
     os_path_exists (world s) (path_join wd name) = true /\
     status_of s' = py "ready" /\
     _current_dataset (svc s') = Some name /\
     (exists engine, _rag_model (svc s') = Some engine) /\
     exists c, _config (svc s') = Some c /\ dataset_name c = name /\ working_dir c = wd).
Proof.
  unfold load_existing_dataset, initialize_config, load_embedding_model, load_llm_model.
  load_cases.
  all: eexists; eexists; (split; [reflexivity|]).
  all: destruct s as [? ? ?]; cbn [svc world trace] in *.
  all: split; [intros; first [congruence | now split]|].
  all: split; [intros; first [congruence | now split]|].
  all: intros B; try discriminate B.
  all: split; [reflexivity|]; split; [apply status_of_set_status|].
  all: split; [reflexivity|]; split; [eexists; reflexivity|].
  all: eexists; split; [reflexivity|]; split; reflexivity.
Qed.

End Loading.

(** ** The dataset registry *)

(** With a configuration active whose working root exists and can be
    listed, the listing is read-only and holds exactly the entries of the
    root that are directories with a [.parquet] file. *)
Theorem get_datasets_lists {R : Runtime} (s : Sys) (c : Config) (items : list pystr) :
  _config (svc s) = Some c ->
  os_path_exists (world s) (working_dir c) = true ->
  os_listdir (world s) (working_dir c) = Ok items ->
  (forall i, In i items -> os_path_isdir (world s) (path_join (working_dir c) i) = true ->
             exists files, os_listdir (world s) (path_join (working_dir c) i) = Ok files) ->
  exists found,
    get_datasets s = (Ok found, s) /\
    forall n, In n found <->
              In n items /\
              os_path_isdir (world s) (path_join (working_dir c) n) = true /\
              exists files,
                os_listdir (world s) (path_join (working_dir c) n) = Ok files /\
                has_parquet files = true.
Proof.
  intros Hc He Hl Hd. erewrite get_datasets_scan by eassumption.
  exact (scan_datasets_lists _ _ _ Hd).
Qed.

Lemma get_datasets_lists_demo :
  exists found,
    @get_datasets Demo.runtime Demo.loaded = (Ok found, Demo.loaded) /\
    forall n, In n found <->
              In n [py "wiki5"] /\
              @os_path_isdir Demo.runtime (@world Demo.runtime Demo.loaded)
                             (path_join (working_dir Demo.config) n) = true /\
              exists files,
                @os_listdir Demo.runtime (@world Demo.runtime Demo.loaded)
                            (path_join (working_dir Demo.config) n) = Ok files /\
                has_parquet files = true.
Proof.
  assert (Hc : _config (@svc Demo.runtime Demo.loaded) = Some Demo.config)
    by (vm_compute; reflexivity).
  assert (He : @os_path_exists Demo.runtime (@world Demo.runtime Demo.loaded)
                               (working_dir Demo.config) = true) by reflexivity.
  assert (Hl : @os_listdir Demo.runtime (@world Demo.runtime Demo.loaded)
                           (working_dir Demo.config) = Ok [py "wiki5"])
    by (vm_compute; reflexivity).
  apply (@get_datasets_lists Demo.runtime Demo.loaded Demo.config [py "wiki5"] Hc He Hl).
  intros i [<-|[]] _. exists [py "passage_embedding.parquet"]. vm_compute. reflexivity.
Defined.



(** ** Failure modes of a query *)

Section QueryFailures.

Context {R : Runtime}.

Lemma query_try_without_llm_model (engine : Engine) (t0 : Q) (q : pystr) (k : Z)
      (s : Sys) (r : Retrieval) (rest : list Retrieval) (w1 : World) :
  rag_retrieve engine [(q, [])] (world s) = (Ok (r :: rest), w1) ->
  forallb encodable
          (map fst (combine (sorted_passage r) (sorted_passage_scores r))) = true ->
  _llm_model (svc s) = None ->
  fst (query_try engine t0 q k true s) =
  Raise (Exception "AttributeError" (py "'NoneType' object has no attribute 'infer'")).
Proof.
  intros Hr He Hl. unfold query_try. msimpl. rewrite Hr. msimpl.
  destruct (clock w1) as [t1 w2]. msimpl.
  rewrite (format_documents_ok _ He). msimpl.
  destruct (clock w2) as [t2 w3]. msimpl. cbn [_llm_model with_progress].
  rewrite Hl. reflexivity.
Qed.

Lemma query_try_empty_retrieval (engine : Engine) (t0 : Q) (q : pystr) (k : Z)
      (u : bool) (s : Sys) (w1 : World) :
  rag_retrieve engine [(q, [])] (world s) = (Ok [], w1) ->
  fst (query_try engine t0 q k u s) =
  Raise (Exception "IndexError" (py "list index out of range")).
Proof.
  intros Hr. unfold query_try. msimpl. rewrite Hr. reflexivity.
Qed.

(** A query that asks for generation while no language model is loaded
    (an engine built by [process_documents] alone) retrieves, then fails on
    the missing model: it returns the failure result with the question and
    the [AttributeError] message, and the status is [error]. *)
Theorem query_without_loaded_llm (q : pystr) (k : Z) (s : Sys) (engine : Engine)
        (r : Retrieval) (rest : list Retrieval) (w1 : World) :
  _rag_model (svc s) = Some engine ->
  _llm_model (svc s) = None ->
  rag_retrieve engine [(q, [])] (snd (clock (world s))) = (Ok (r :: rest), w1) ->
  forallb encodable
          (map fst (combine (sorted_passage r) (sorted_passage_scores r))) = true ->
  fst (query q k true s) =
  Ok [("success", VBool false); ("question", VStr q);
      ("error", VStr (py "'NoneType' object has no attribute 'infer'"))] /\
  status_of (snd (query q k true s)) = py "error".
Proof.
  intros E Hl Hr He. rewrite (query_eq q k true s E). cbn zeta.
  pose proof (query_try_without_llm_model engine (fst (clock (world s))) q k
                {| svc := svc s; world := snd (clock (world s)); trace := trace s |}
                Hr He Hl) as H.
  destruct (query_try engine _ q k true _) as [[d|e] s1]; [discriminate H|].
  cbn in H. injection H as ->. split; [reflexivity|]. apply status_of_set_status.
Qed.

(** An engine that answers a query with no retrieval result at all makes
    the query fail on [results[0]]: the failure result carries the
    [IndexError] message. *)
Theorem query_empty_retrieval (q : pystr) (k : Z) (u : bool) (s : Sys) (engine : Engine)
        (w1 : World) :
  _rag_model (svc s) = Some engine ->
  rag_retrieve engine [(q, [])] (snd (clock (world s))) = (Ok [], w1) ->
  fst (query q k u s) =
  Ok [("success", VBool false); ("question", VStr q);
      ("error", VStr (py "list index out of range"))] /\
  status_of (snd (query q k u s)) = py "error".
Proof.
  intros E Hr. rewrite (query_eq q k u s E). cbn zeta.
  pose proof (query_try_empty_retrieval engine (fst (clock (world s))) q k u
                {| svc := svc s; world := snd (clock (world s)); trace := trace s |}
                Hr) as H.
  destruct (query_try engine _ q k u _) as [[d|e] s1]; [discriminate H|].
  cbn in H. injection H as ->. split; [reflexivity|]. apply status_of_set_status.
Qed.

End QueryFailures.

Lemma query_without_loaded_llm_demo :
  fst (@query Demo.runtime (py "What is doc1 about?") 5%Z true Demo.indexed) =
  Ok [("success", VBool false); ("question", VStr (py "What is doc1 about?"));
      ("error", VStr (py "'NoneType' object has no attribute 'infer'"))].
Proof.
  assert (E : _rag_model (@svc Demo.runtime Demo.indexed) = Some (py "wiki5"))
    by (vm_compute; reflexivity).
  assert (Hl : _llm_model (@svc Demo.runtime Demo.indexed) = None)
    by (vm_compute; reflexivity).
  assert (He : forallb encodable
                 (map fst (combine (sorted_passage Demo.ranked)
                                   (sorted_passage_scores Demo.ranked))) = true)
    by (vm_compute; reflexivity).
  exact (proj1 (@query_without_loaded_llm Demo.runtime (py "What is doc1 about?") 5%Z
                  Demo.indexed (py "wiki5") Demo.ranked []
                  (snd (@clock Demo.runtime (@world Demo.runtime Demo.indexed)))
                  E Hl eq_refl He)).
Defined.

(** ** Listing after a completed run *)

Section Completed.

Context {R : Runtime}.

Ltac notify_open :=
  rewrite notify_eq; unfold notified; cbn [svc world trace];
  match goal with
  | |- context [observers_world ?a ?b ?c] =>
    let w := fresh "w" in generalize (observers_world a b c); intro w
  end.

Lemma status_of_failure (x : pystr) (e : option pystr) (p : Q) (a b : pystr)
      (v : LinearRAGService) :
  ProgressInfo.status
    (progress
       (with_progress (set_message b)
          (with_progress (set_current_step a)
             (with_progress (set_progress p)
                (with_progress (set_error e) (with_progress (set_status x) v)))))) = x.
Proof. reflexivity. Qed.

Lemma error_not_completed : py "error" <> py "completed".
Proof. intros H. vm_compute in H. discriminate H. Qed.

Lemma observers_world_keeps (K : World -> Prop) (cbs : list Callback)
      (p : ProgressInfo.t) (w : World) :
  (forall cb, In cb cbs -> forall p w, K w -> K (snd (cb p w))) ->
  K w -> K (observers_world cbs p w).
Proof.
  unfold observers_world. revert w.
  induction cbs as [|cb cbs IH]; intros w H Hw; [exact Hw|].
  cbn. apply IH.
  - intros cb' Hin. apply H. now right.
  - apply H; [now left | exact Hw].
Qed.

Lemma process_documents_run (ps : list pystr) (n : pystr) (cfg : option Config)
      (cb : option Callback) (s : Sys) (P : Sys -> Prop) :
  (forall s', status_of s' = py "error" -> P s') ->
  (forall engine w0 w1 w2 w3 v pinfo t,
      LinearRAG (match cfg with Some x => Some x | None => _config (svc s) end) w0
      = (Ok engine, w1) ->
      rag_index engine ps w2 = (Ok tt, w3) ->
      _config v = _config (svc s) ->
      P {| svc := v;
           world := observers_world
                      (match cb with
                       | Some x => _progress_callbacks (svc s) ++ [x]
                       | None => _progress_callbacks (svc s)
                       end) pinfo w3;
           trace := t |}) ->
  P (snd (process_documents ps n cfg cb s)).
Proof.
  intros Herr Hok. unfold process_documents.
  destruct cb as [cb|]; msimpl; destruct (clock (world s)) as [t0 w0]; msimpl;
    notify_open; msimpl; destruct cfg as [c|]; msimpl; notify_open; msimpl.
  all: cbn [_config set_current_dataset with_progress add_callback].
  all: match goal with
       | |- context [LinearRAG ?x ?w] =>
         destruct (LinearRAG x w) as [[engine|e] ?] eqn:HL
       end; msimpl; notify_open; msimpl.
  all: try (match goal with
            | |- context [rag_index ?a ?x ?w] =>
              destruct (rag_index a x w) as [[[]|e] ?] eqn:HI
            end; msimpl).
  all: lazymatch goal with
       | |- context [_notify_progress 1.0] =>
         rewrite notify_eq; unfold notified; msimpl;
         cbn [svc _progress_callbacks with_progress set_rag_model set_current_dataset
              add_callback];
         apply (Hok engine _ _ _ _ _ _ _ HL HI); reflexivity
       | _ =>
         try notify_open; msimpl; apply Herr; unfold status_of; cbn [svc];
         apply (status_of_failure _ _ _ _ _ _)
       end.
Qed.

(** C5, as the code has it: after a run for the dataset [n] that completes
    with status [completed], the listing includes [n], provided a
    configuration is active in the service and has the working root of the
    configuration the run uses, which is a configuration for [n].  The run
    never installs the configuration it is given; the engine persists what
    it indexed, and the observers leave storage alone. *)
Theorem indexed_dataset_listed (ps : list pystr) (n : pystr) (cfg : option Config)
        (cb : option Callback) (s : Sys) (c : Config) :
  let eff := match cfg with Some x => x | None => c end in
  let s' := call (ProcessDocuments ps n cfg cb) s in
  persists eff ->
  (forall x, In x (_progress_callbacks (svc s)) \/ cb = Some x ->
             keeps_storage (working_dir c) n x) ->
  _config (svc s) = Some c ->
  dataset_name eff = n ->
  working_dir eff = working_dir c ->
  status_of s' = py "completed" ->
  exists found, get_datasets s' = (Ok found, s') /\ In n found.
Proof.
  intros eff s' Hp Hk Hc Hn Hw. unfold s'. cbn [call].
  apply process_documents_run.
  - intros s1 He H. rewrite He in H. destruct (error_not_completed H).
  - intros engine w0 w1 w2 w3 v pinfo t HL HI Hv _.
    assert (HL' : LinearRAG (Some eff) w0 = (Ok engine, w1)).
    { unfold eff. rewrite <- HL. destruct cfg; [reflexivity|now rewrite Hc]. }
    pose proof (Hp _ _ _ _ _ _ HL' HI) as St. rewrite Hn, Hw in St.
    set (cbs := match cb with
                | Some x => _progress_callbacks (svc s) ++ [x]
                | None => _progress_callbacks (svc s)
                end).
    assert (St' : stored (observers_world cbs pinfo w3) (working_dir c) n).
    { apply (observers_world_keeps (fun w => stored w (working_dir c) n)); [|exact St].
      intros x Hx p w. apply Hk. unfold cbs in Hx. destruct cb as [y|]; [|now left].
      apply in_app_or in Hx as [Hx|[<-|[]]]; [now left|now right]. }
    set (S := {| svc := v; world := observers_world cbs pinfo w3; trace := t |}).
    destruct St' as [He [items [Hl [Hd [Hin [Hi [files [Hf Hq]]]]]]]].
    assert (Hc' : _config (svc S) = Some c) by (cbn; congruence).
    destruct (scan_datasets_lists (working_dir c) items S Hd) as [found [E F]].
    exists found. split.
    + now rewrite (get_datasets_scan S Hc' He Hl).
    + apply F. split; [exact Hin|]. split; [exact Hi|]. now exists files.
Qed.

End Completed.

Lemma indexed_dataset_listed_demo :
  exists found,
    @get_datasets Demo.runtime
      (@call Demo.runtime
         (@ProcessDocuments Demo.runtime [Demo.doc1; Demo.doc2] (py "wiki5")
            (Some Demo.config) None)
         Demo.loaded) =
    (Ok found,
     @call Demo.runtime
       (@ProcessDocuments Demo.runtime [Demo.doc1; Demo.doc2] (py "wiki5")
          (Some Demo.config) None)
       Demo.loaded) /\
    In (py "wiki5") found.
Proof.
  apply (@indexed_dataset_listed Demo.runtime [Demo.doc1; Demo.doc2] (py "wiki5")
           (Some Demo.config) None Demo.loaded Demo.config).
  - intros w0 w1 w2 w3 engine passages _ _. split; [reflexivity|].
    exists [py "wiki5"]. split; [vm_compute; reflexivity|]. split.
    { intros i [<-|[]] _. exists [py "passage_embedding.parquet"].
      vm_compute. reflexivity. }
    split; [now left|]. split; [vm_compute; reflexivity|].
    exists [py "passage_embedding.parquet"]. split; vm_compute; reflexivity.
  - intros x [H|H]; [vm_compute in H; destruct H | discriminate H].
  - vm_compute. reflexivity.
  - vm_compute. reflexivity.
  - reflexivity.
  - vm_compute. reflexivity.
Defined.
